(** * poi: point-of-interest resolution and routing (src/src/poi.py)

    A shallow embedding of the [poi] class: the constructor with its
    Nominatim lookup ([__geo_decode]), the OSRM routing call ([route_to]),
    and the identity methods [__eq__] and [__hash__].

    Python values that the JSON parser produces are immutable trees here
    (the code never writes into a parsed response); the objects the code
    creates or writes to (a [poi] instance, the list of waypoints, the
    returned dictionary) live in a heap, so that aliasing and freshness are
    visible.  The two web services are an oracle from requests to
    responses; every call of [requests.get] and of [response.json] is
    recorded in a log. *)

From Stdlib Require Import ZArith String List Floats.
From stdpp Require Import gmap strings list.
From Equations Require Import Equations.
From Equations.Prop Require Import Logic.
Import ListNotations.

Set Warnings "-register-all,-inexact-float".

Local Open Scope string_scope.
Local Open Scope Z_scope.

(** ** Python values *)

(** What [json.loads] can return, plus tuples.  A [PDict] lists the items of
    a dictionary with string keys in insertion order; lookups return the
    first item with the key, so they do not depend on keys being distinct. *)
Inductive pyval : Type :=
| PNone
| PBool (b : bool)
| PInt (z : Z)
| PFloat (f : float)
| PStr (s : string)
| PList (l : list pyval)
| PTuple (l : list pyval)
| PDict (d : list (string * pyval)).

(** The three messages the class raises [ValueError] with.  The f-string
    holes are kept as they are, unformatted. *)
Inductive message : Type :=
| MsgDecodeAddress
    (* "We couldn't decode the address, please make sure you entered it correctly" *)
| MsgNoPlaceOfType (osm_type : string)
    (* f"We couldn't find places with the type {osm_type}" *)
| MsgNoRoute (src dest : pyval)
    (* f"OSRM couldn't find a route between {src} and {dest}" *).

Inductive exn : Type :=
| ValueError (m : message)
| IndexError
| KeyError (k : pyval)
| TypeError
| AttributeError (name : string)
| JSONDecodeError
| RequestException.

Inductive result (A : Type) : Type :=
| Ok (a : A)
| Raise (e : exn).
Arguments Ok {A} a.
Arguments Raise {A} e.

Definition bind_result {A B} (r : result A) (k : A -> result B) : result B :=
  match r with
  | Ok a => k a
  | Raise e => Raise e
  end.

(** The spec's two error kinds; the source raises [ValueError] for both and
    tells them apart by message only. *)
Definition ResolutionError (e : exn) : Prop :=
  e = ValueError MsgDecodeAddress \/ exists t, e = ValueError (MsgNoPlaceOfType t).

Definition RoutingError (e : exn) : Prop :=
  exists src dest, e = ValueError (MsgNoRoute src dest).

(** ** Equality of values: Python's [==] *)

(** A float against an int is compared exactly, as CPython does. *)
Definition float_eq_int (f : float) (z : Z) : bool :=
  match Prim2SF f with
  | S754_zero _ => z =? 0
  | S754_finite s m e =>
      let sign (a : Z) := if s then - a else a in
      if 0 <=? e then z =? sign (Z.pos m * 2 ^ e)
      else if Z.pos m mod 2 ^ (- e) =? 0 then z =? sign (Z.pos m / 2 ^ (- e))
      else false
  | _ => false
  end.

Definition assoc (k : string) (d : list (string * pyval)) : option pyval :=
  snd <$> List.find (fun kv => String.eqb (fst kv) k) d.

(** [bool] is a subclass of [int]: [True == 1 == 1.0].  Sequences compare
    element by element; dictionaries by keys and values.  (CPython also
    takes two elements that are the same object as equal; identity of
    parsed values is not tracked, which only shows on a NaN inside a
    container.) *)
Fixpoint py_eq (a b : pyval) {struct a} : bool :=
  let int_eq (x : Z) (b : pyval) :=
    match b with
    | PBool c => x =? Z.b2z c
    | PInt y => x =? y
    | PFloat g => float_eq_int g x
    | _ => false
    end in
  let seq_eq :=
    fix seq_eq (l1 l2 : list pyval) : bool :=
      match l1, l2 with
      | [], [] => true
      | x :: xs, y :: ys => py_eq x y && seq_eq xs ys
      | _, _ => false
      end in
  match a with
  | PNone => match b with PNone => true | _ => false end
  | PBool c => int_eq (Z.b2z c) b
  | PInt x => int_eq x b
  | PFloat f =>
      match b with
      | PBool c => float_eq_int f (Z.b2z c)
      | PInt y => float_eq_int f y
      | PFloat g => PrimFloat.eqb f g
      | _ => false
      end
  | PStr s => match b with PStr t => String.eqb s t | _ => false end
  | PList l1 => match b with PList l2 => seq_eq l1 l2 | _ => false end
  | PTuple l1 => match b with PTuple l2 => seq_eq l1 l2 | _ => false end
  | PDict d1 =>
      match b with
      | PDict d2 =>
          Nat.eqb (length d1) (length d2) &&
          (fix items_eq (d : list (string * pyval)) : bool :=
             match d with
             | [] => true
             | (k, v) :: r =>
                 match assoc k d2 with
                 | Some w => py_eq v w
                 | None => false
                 end && items_eq r
             end) d1
      | _ => false
      end
  end.

Definition py_ne (a b : pyval) : bool := negb (py_eq a b).

(** ** Subscripts, slices and iteration *)

(** [l[i]] on a sequence: a negative index counts from the end. *)
Definition index_seq {A} (l : list A) (i : Z) : option A :=
  let n := Z.of_nat (length l) in
  let j := if i <? 0 then i + n else i in
  if (0 <=? j) && (j <? n) then l !! Z.to_nat j else None.

Definition chars (s : string) : list pyval :=
  (fun c => PStr (String c EmptyString)) <$> list_ascii_of_string s.

(** [v[i]] for an integer [i]. *)
Definition getitem_int (v : pyval) (i : Z) : result pyval :=
  match v with
  | PList l | PTuple l =>
      match index_seq l i with Some x => Ok x | None => Raise IndexError end
  | PStr s =>
      match index_seq (chars s) i with Some x => Ok x | None => Raise IndexError end
  | PDict _ => Raise (KeyError (PInt i))
  | _ => Raise TypeError
  end.

(** [v[k]] for a string [k]. *)
Definition getitem_str (v : pyval) (k : string) : result pyval :=
  match v with
  | PDict d =>
      match assoc k d with Some x => Ok x | None => Raise (KeyError (PStr k)) end
  | _ => Raise TypeError
  end.

(** [v[::-1]].  On a dictionary the slice is not a usable key: [TypeError]
    (unhashable) up to CPython 3.11. *)
Definition reversed_slice (v : pyval) : result pyval :=
  match v with
  | PList l => Ok (PList (rev l))
  | PTuple l => Ok (PTuple (rev l))
  | PStr s => Ok (PStr (string_of_list_ascii (rev (list_ascii_of_string s))))
  | _ => Raise TypeError
  end.

(** What iterating over [v] yields. *)
Definition py_iter (v : pyval) : result (list pyval) :=
  match v with
  | PList l | PTuple l => Ok l
  | PStr s => Ok (chars s)
  | PDict d => Ok ((fun kv => PStr (fst kv)) <$> d)
  | _ => Raise TypeError
  end.

(** [tuple(v)]. *)
Definition py_tuple (v : pyval) : result pyval :=
  bind_result (py_iter v) (fun l => Ok (PTuple l)).

(** [len(v)] where it is defined, 0 elsewhere; only used as a bound. *)
Definition seq_length (v : pyval) : Z :=
  match v with
  | PList l | PTuple l => Z.of_nat (length l)
  | PStr s => Z.of_nat (length (chars s))
  | _ => 0
  end.

Notation "'let?' x ':=' e 'in' k" := (bind_result e (fun x => k))
  (at level 10, x name, e at level 100, k at level 200).

(** ** The heap, the network and the log *)

Definition loc := positive.

(** A slot of a heap dictionary holds a value or a reference to a heap
    object. *)
Inductive cell : Type :=
| CVal (v : pyval)
| CRef (l : loc).

Inductive object : Type :=
| OInstance (attrs : gmap string pyval)      (* a [poi] instance: its __dict__ *)
| OList (items : list pyval)                 (* a list built by [list()] *)
| ODict (entries : list (string * cell))     (* a dictionary display *).

(** The two URLs the class requests, by their f-string holes. *)
Inductive url : Type :=
| NominatimSearch (name country : string)
    (* f'https://nominatim.openstreetmap.org/search?q={name} - {country}&format=geocodejson' *)
| OsrmRoute (mode : string) (lon1 lat1 lon2 lat2 : pyval)
    (* f'http://router.project-osrm.org/route/v1/{mode}/{src[0]},{src[1]};{dest[0]},{dest[1]}?steps=true' *).

(** A [requests.Response]: its status and what [.json()] gives when called
    (the parsed body, or the decoding error). *)
Record http_response : Type := Response {
  status_code : Z;
  json : result pyval
}.

Inductive event : Type :=
| Get (u : url)         (* requests.get(u) was called *)
| Json (r : http_response)   (* r.json() was called *).

Record world : Type := World {
  heap : gmap loc object;
  log : list event
}.

(** Computations: state passing with exceptions; the state survives a
    raise. *)
Definition M (A : Type) : Type := world -> result A * world.

Definition ret {A} (a : A) : M A := fun w => (Ok a, w).

Definition raise {A} (e : exn) : M A := fun w => (Raise e, w).

Definition bind {A B} (m : M A) (k : A -> M B) : M B :=
  fun w =>
    match m w with
    | (Ok a, w') => k a w'
    | (Raise e, w') => (Raise e, w')
    end.

Definition lift {A} (r : result A) : M A := fun w => (r, w).

Notation "'let*' x ':=' e 'in' k" := (bind e (fun x => k))
  (at level 10, x name, e at level 100, k at level 200).
Notation "e ';;' k" := (bind e (fun _ => k))
  (at level 100, k at level 200, right associativity).

Definition alloc (o : object) : M loc :=
  fun w =>
    let l := fresh (dom (heap w)) in
    (Ok l, World (<[l := o]> (heap w)) (log w)).

(** [o.name] *)
Definition getattr (o : loc) (name : string) : M pyval :=
  fun w =>
    match heap w !! o with
    | Some (OInstance attrs) =>
        match attrs !! name with
        | Some v => (Ok v, w)
        | None => (Raise (AttributeError name), w)
        end
    | _ => (Raise (AttributeError name), w)
    end.

(** [o.name = v] *)
Definition setattr (o : loc) (name : string) (v : pyval) : M unit :=
  fun w =>
    match heap w !! o with
    | Some (OInstance attrs) =>
        (Ok tt, World (<[o := OInstance (<[name := v]> attrs)]> (heap w)) (log w))
    | _ => (Raise (AttributeError name), w)
    end.

(** [l.append(v)] *)
Definition append (l : loc) (v : pyval) : M unit :=
  fun w =>
    match heap w !! l with
    | Some (OList items) =>
        (Ok tt, World (<[l := OList (items ++ [v])]> (heap w)) (log w))
    | _ => (Raise (AttributeError "append"), w)
    end.

(** [for x in xs: body x] *)
Fixpoint for_each {A} (xs : list A) (body : A -> M unit) : M unit :=
  match xs with
  | [] => ret tt
  | x :: rest => body x ;; for_each rest body
  end.

(** ** The constructor: [__init__] and [__geo_decode] *)

(** [place['properties']['geocoding'][key]] *)
Definition geocoding (place : pyval) (key : string) : result pyval :=
  let? properties := getitem_str place "properties" in
  let? geocoding := getitem_str properties "geocoding" in
  getitem_str geocoding key.

(** [place['geometry']['coordinates']] *)
Definition geometry_coordinates (place : pyval) : result pyval :=
  let? geometry := getitem_str place "geometry" in
  getitem_str geometry "coordinates".

(** [response_json['features'][index]] *)
Definition feature (response_json : pyval) (index : Z) : result pyval :=
  let? features := getitem_str response_json "features" in
  getitem_int features index.

(** How many candidates there are to index; the loop's bound. *)
Definition features_length (response_json : pyval) : Z :=
  match getitem_str response_json "features" with
  | Ok features => seq_length features
  | Raise _ => 0
  end.

(** The [while] loop of [__geo_decode], from the state ([index], [place])
    it is entered with; it returns the [place] it leaves with.  The bare
    [except] turns whatever the indexing raises into the [ValueError]; the
    loop's test is outside the [try]. *)
Equations? while_osm_type (response_json : pyval) (osm_type : string)
    (index : Z) (place : pyval) : result pyval
    by wf (Z.to_nat (features_length response_json - index)) lt :=
  while_osm_type response_json osm_type index place
    with geocoding place "osm_type" := {
    | Raise e => Raise e
    | Ok kind with py_ne kind (PStr osm_type) := {
      | false => Ok place
      | true with inspect (feature response_json (index + 1)) := {
        | exist _ (Raise _) _ => Raise (ValueError (MsgNoPlaceOfType osm_type))
        | exist _ (Ok place') Hnext =>
            while_osm_type response_json osm_type (index + 1) place' } } }.
Proof.
  (* a candidate was found at [index + 1], so [index + 1] is below the bound *)
  enough (index + 1 < features_length response_json) by lia.
  unfold feature, features_length in *.
  destruct (getitem_str response_json "features") as [features|]; [| discriminate].
  assert (Hseq : forall (l : list pyval) x,
             index_seq l (index + 1) = Some x -> index + 1 < Z.of_nat (length l)).
  { unfold index_seq. intros l x.
    destruct (index + 1 <? 0) eqn:Hneg; [lia |].
    destruct (0 <=? index + 1) eqn:H0;
      destruct (index + 1 <? Z.of_nat (length l)) eqn:Hlt;
      simpl; try discriminate; lia. }
  destruct features; simpl in *; try discriminate.
  - destruct (index_seq (chars s) (index + 1)) eqn:E; [eauto | discriminate].
  - destruct (index_seq l (index + 1)) eqn:E; [eauto | discriminate].
  - destruct (index_seq l (index + 1)) eqn:E; [eauto | discriminate].
Qed.

Section Poi.

(** What the network answers to a request, given everything that
    happened before it; it may also fail to answer. *)
Variable requests_get : list event -> url -> result http_response.

(** [requests.get(u)] *)
Definition get (u : url) : M http_response :=
  fun w => (requests_get (log w) u, World (heap w) (log w ++ [Get u])).

(** [response.json()] *)
Definition json_of (r : http_response) : M pyval :=
  fun w => (json r, World (heap w) (log w ++ [Json r])).

Definition __geo_decode (self : loc) (name country osm_type : string) : M unit :=
  let* response := get (NominatimSearch name country) in
  if negb (status_code response =? 200) then raise (ValueError MsgDecodeAddress)
  else
    let* response_json := json_of response in
    let index := 0 in
    let* place := lift (feature response_json index) in
    let* place := lift (while_osm_type response_json osm_type index place) in
    let* label := lift (geocoding place "label") in
    setattr self "address" label ;;
    let* osm_id := lift (geocoding place "osm_id") in
    setattr self "osmid" osm_id ;;
    let* coordinates :=
      lift (let? coordinates := geometry_coordinates place in
            py_tuple coordinates) in
    setattr self "coordinates" coordinates.

Definition __init__ (self : loc) (name country osm_type : string) : M unit :=
  __geo_decode self name country osm_type.

(** The call [poi(name, country, osm_type)]: a new instance, initialised. *)
Definition poi (name country osm_type : string) : M loc :=
  let* self := alloc (OInstance ∅) in
  __init__ self name country osm_type ;;
  ret self.

(** ** Routing: [route_to] *)

(** The body of the [for] loop over the steps. *)
Definition route_step_body (route_coords : loc) (route_step : pyval) : M unit :=
  let* maneuver := lift (getitem_str route_step "maneuver") in
  let* location := lift (getitem_str maneuver "location") in
  let* location := lift (reversed_slice location) in
  let* waypoint := lift (py_tuple location) in
  append route_coords waypoint.

Definition route_to (self destination : loc) (mode : string) : M loc :=
  let* src := getattr self "coordinates" in
  let* dest := getattr destination "coordinates" in
  let* src0 := lift (getitem_int src 0) in
  let* src1 := lift (getitem_int src 1) in
  let* dest0 := lift (getitem_int dest 0) in
  let* dest1 := lift (getitem_int dest 1) in
  let* response := get (OsrmRoute mode src0 src1 dest0 dest1) in
  let* response_json := json_of response in
  let* code := lift (getitem_str response_json "code") in
  if py_ne code (PStr "Ok") then raise (ValueError (MsgNoRoute src dest))
  else
    let* route :=
      lift (let? routes := getitem_str response_json "routes" in
            getitem_int routes 0) in
    let* cost := lift (getitem_str route "distance") in
    let* duration := lift (getitem_str route "duration") in
    let* legs :=
      lift (let? legs := getitem_str route "legs" in getitem_int legs 0) in
    let* steps := lift (getitem_str legs "steps") in
    let* route_coords := alloc (OList []) in
    let* items := lift (py_iter steps) in
    for_each items (route_step_body route_coords) ;;
    alloc (ODict [("route", CRef route_coords);
                  ("length", CVal cost);
                  ("duration", CVal duration)]).

(** ** Identity: [__eq__] and [__hash__] *)

Definition __eq__ (self other : loc) : M pyval :=
  let* a := getattr self "osmid" in
  let* b := getattr other "osmid" in
  ret (PBool (py_eq a b)).

Definition __hash__ (self : loc) : M pyval :=
  getattr self "osmid".

End Poi.

(** The defaults of the optional parameters. *)

(** The defaults of the optional parameters. *)
Definition default_osm_type : string := "node".
Definition default_mode : string := "driving".

(** ** Reading a returned route back from the heap *)

Definition entry (h : gmap loc object) (r : loc) (key : string) : option cell :=
  match h !! r with
  | Some (ODict entries) => snd <$> List.find (fun kv => String.eqb (fst kv) key) entries
  | _ => None
  end.

(** [r['route']], the list behind the reference *)
Definition route_path (h : gmap loc object) (r : loc) : option (list pyval) :=
  match entry h r "route" with
  | Some (CRef l) =>
      match h !! l with
      | Some (OList items) => Some items
      | _ => None
      end
  | _ => None
  end.

(** [r['length']] *)
Definition route_length (h : gmap loc object) (r : loc) : option pyval :=
  match entry h r "length" with
  | Some (CVal v) => Some v
  | _ => None
  end.

(** [r['duration']] *)
Definition route_duration (h : gmap loc object) (r : loc) : option pyval :=
  match entry h r "duration" with
  | Some (CVal v) => Some v
  | _ => None
  end.

(** [0 <= v] for a number. *)
Definition nonneg (v : pyval) : bool :=
  match v with
  | PInt z => 0 <=? z
  | PFloat f => PrimFloat.leb 0 f
  | _ => false
  end.

(** ** Vocabulary of the statements *)

(** The attribute [name] of the instance at [p] holds [v]. *)
Definition has_attr (h : gmap loc object) (p : loc) (name : string) (v : pyval) : Prop :=
  exists attrs, h !! p = Some (OInstance attrs) /\ attrs !! name = Some v.

(** [c] is a coordinate pair that can be read at 0 and 1. *)
Definition lon_lat (c lon lat : pyval) : Prop :=
  getitem_int c 0 = Ok lon /\ getitem_int c 1 = Ok lat.

(** [step['maneuver']['location']] *)
Definition maneuver_location (route_step : pyval) : result pyval :=
  let? maneuver := getitem_str route_step "maneuver" in
  getitem_str maneuver "location".

(** A candidate that reports a kind, and not the requested one. *)
Definition other_kind (osm_type : string) (candidate : pyval) : Prop :=
  exists kind, geocoding candidate "osm_type" = Ok kind /\ kind <> PStr osm_type.

(** The [__dict__] of an instance that [__geo_decode] has filled in. *)
Definition resolved (address osmid coordinates : pyval) : object :=
  OInstance (<["coordinates" := coordinates]>
            (<["osmid" := osmid]>
            (<["address" := address]> ∅))).

(** What [__geo_decode] reads from the candidate it leaves the loop with,
    in the order in which it reads it. *)
Definition place_fields (place : pyval) : result (pyval * pyval * pyval) :=
  let? label := geocoding place "label" in
  let? osm_id := geocoding place "osm_id" in
  let? coordinates :=
    (let? coordinates := geometry_coordinates place in py_tuple coordinates) in
  Ok (label, osm_id, coordinates).

(** The waypoint a step contributes: its maneuver location, reversed, as a
    tuple. *)
Definition waypoint (route_step : pyval) : result pyval :=
  let? location := maneuver_location route_step in
  let? location := reversed_slice location in
  py_tuple location.

(** [response_json['routes'][0]] *)
Definition first_route (response_json : pyval) : result pyval :=
  let? routes := getitem_str response_json "routes" in
  getitem_int routes 0.

(** [route['legs'][0]['steps']], iterated *)
Definition first_leg_steps (route : pyval) : result (list pyval) :=
  let? legs := getitem_str route "legs" in
  let? leg := getitem_int legs 0 in
  let? steps := getitem_str leg "steps" in
  py_iter steps.

(** The dictionary [route_to] returns. *)
Definition route_dict (route_coords : loc) (cost duration : pyval) : object :=
  ODict [("route", CRef route_coords);
         ("length", CVal cost);
         ("duration", CVal duration)].

(** The routing request that [route_to] makes in [w] for these two places
    is answered, the answer is accepted, and [route] is its first route. *)
Definition answered (requests_get : list event -> url -> result http_response)
    (w : world) (self destination : loc) (mode : string) (route : pyval) : Prop :=
  exists src dest lon1 lat1 lon2 lat2 response response_json,
    has_attr (heap w) self "coordinates" src /\
    has_attr (heap w) destination "coordinates" dest /\
    lon_lat src lon1 lat1 /\
    lon_lat dest lon2 lat2 /\
    requests_get (log w) (OsrmRoute mode lon1 lat1 lon2 lat2) = Ok response /\
    json response = Ok response_json /\
    getitem_str response_json "code" = Ok (PStr "Ok") /\
    first_route response_json = Ok route.

(** [h'] keeps every object of [h] as it is. *)
Definition preserves (h h' : gmap loc object) : Prop :=
  forall l o, h !! l = Some o -> h' !! l = Some o.

(** Hoare triples for computations: from a world in [P], the computation
    ends in [Q] when it returns and in [E] when it raises. *)
Definition triple {A} (P : world -> Prop) (m : M A)
    (Q : A -> world -> Prop) (E : world -> Prop) : Prop :=
  forall w, P w ->
    match m w with
    | (Ok a, w') => Q a w'
    | (Raise _, w') => E w'
    end.

(** The world still has every object of [h0] as it was. *)
Definition keeps (h0 : gmap loc object) (w : world) : Prop :=
  preserves h0 (heap w).

(** An identifier as the data model has it: an integer or a string. *)
Definition is_identifier (v : pyval) : Prop :=
  match v with
  | PInt _ | PStr _ => True
  | _ => False
  end.



(** ** Sample data *)

(** A geocodejson feature as Nominatim returns it. *)
Definition feature_of (kind : string) (osm_id : Z) (label : string) (lon lat : float) : pyval :=
  PDict [("type", PStr "Feature");
         ("properties",
          PDict [("geocoding",
                  PDict [("osm_type", PStr kind);
                         ("osm_id", PInt osm_id);
                         ("label", PStr label)])]);
         ("geometry",
          PDict [("type", PStr "Point");
                 ("coordinates", PList [PFloat lon; PFloat lat])])].

Definition geocode_of (features : list pyval) : pyval :=
  PDict [("type", PStr "FeatureCollection"); ("features", PList features)].

(** A step of an OSRM leg, with its maneuver location. *)
Definition step_of (lon lat : float) : pyval :=
  PDict [("maneuver", PDict [("location", PList [PFloat lon; PFloat lat])])].

(** An OSRM answer with one route of one leg. *)
Definition osrm_of (code : string) (distance duration : pyval) (steps : list pyval) : pyval :=
  PDict [("code", PStr code);
         ("routes",
          PList [PDict [("distance", distance);
                        ("duration", duration);
                        ("legs", PList [PDict [("steps", PList steps)]])]])].

(** A network that gives the same answer to everything. *)
Definition always (r : http_response) : list event -> url -> result http_response :=
  fun _ _ => Ok r.

(** A network that gives its [k]-th answer to the [k]-th request. *)
Definition scripted (answers : list http_response) : list event -> url -> result http_response :=
  fun events _ =>
    let asked := List.filter (fun ev => match ev with Get _ => true | Json _ => false end) events in
    match answers !! length asked with
    | Some r => Ok r
    | None => Raise RequestException
    end.

Definition empty_world : world := World ∅ [].

Definition place_of (address : string) (osmid : Z) (lon lat : float) : object :=
  resolved (PStr address) (PInt osmid) (PTuple [PFloat lon; PFloat lat]).

(** Two resolved places, at 1 and 2. *)
Definition toronto_world : world :=
  World (<[2%positive := place_of "CN Tower, Toronto" 222 (-79.3871)%float (43.6426)%float]>
        (<[1%positive := place_of "University of Toronto" 12345 (-79.3973638)%float (43.6620257)%float]> ∅))
        [].

Definition toronto_features : list pyval :=
  [feature_of "way" 777 "University of Toronto (campus)" (-79.39)%float (43.66)%float;
   feature_of "node" 12345 "University of Toronto, St George Street" (-79.3973638)%float (43.6620257)%float;
   feature_of "node" 999 "University of Toronto Mississauga" (-79.66)%float (43.55)%float].

Definition toronto_route : pyval :=
  osrm_of "Ok" (PFloat 2417.3) (PFloat 391.5)
    [step_of (-79.40)%float (43.66)%float; step_of (-79.38)%float (43.65)%float].

(** What OSRM answers when there is no route. *)
Definition no_route : pyval :=
  PDict [("code", PStr "NoRoute");
         ("message", PStr "Impossible route between points")].

(** The coordinates of the two places of [toronto_world] and the request
    for a route between them. *)
Definition toronto_src : pyval := PTuple [PFloat (-79.3973638); PFloat 43.6620257].
Definition toronto_dest : pyval := PTuple [PFloat (-79.3871); PFloat 43.6426].
Definition toronto_request : url :=
  OsrmRoute default_mode (PFloat (-79.3973638)) (PFloat 43.6620257)
            (PFloat (-79.3871)) (PFloat 43.6426).

(** An accepted answer with a negative distance and duration and no step. *)
Definition odd_route : pyval :=
  osrm_of "Ok" (PFloat (-1)) (PFloat (-1)) [].

(** [toronto_world] after a call of [route_to] that was answered with
    [odd_route]: the list at 3, the dictionary at 4. *)
Definition odd_world : world :=
  World (<[4%positive := route_dict 3%positive (PFloat (-1)) (PFloat (-1))]>
        (<[3%positive := OList []]> (heap toronto_world)))
        [Get toronto_request; Json (Response 200 (Ok odd_route))].

(** Two resolutions of the same place, the second with a newer label. *)
Definition stale_answers : list http_response :=
  [Response 200 (Ok (geocode_of
     [feature_of "node" 12345 "University of Toronto" (-79.3973638) 43.6620257]));
   Response 200 (Ok (geocode_of
     [feature_of "node" 12345 "University of Toronto, St George Street"
        (-79.3973638) 43.6620257]))].

Definition stale_world : world :=
  World (<[2%positive := place_of "University of Toronto, St George Street" 12345
                           (-79.3973638) 43.6620257]>
        (<[1%positive := place_of "University of Toronto" 12345
                           (-79.3973638) 43.6620257]> ∅))
        [Get (NominatimSearch "university of toronto" "canada");
         Json (Response 200 (Ok (geocode_of
           [feature_of "node" 12345 "University of Toronto" (-79.3973638) 43.6620257])));
         Get (NominatimSearch "uoft" "canada");
         Json (Response 200 (Ok (geocode_of
           [feature_of "node" 12345 "University of Toronto, St George Street"
              (-79.3973638) 43.6620257])))].


(** A candidate that does not report a kind. *)
Definition unreadable_feature : pyval :=
  PDict [("type", PStr "Feature");
         ("properties", PDict [("geocoding", PDict [("label", PStr "Toronto")])])].

(** A node without an identifier. *)
Definition anonymous_feature : pyval :=
  PDict [("type", PStr "Feature");
         ("properties",
          PDict [("geocoding",
                  PDict [("osm_type", PStr "node"); ("label", PStr "Somewhere")])]);
         ("geometry",
          PDict [("type", PStr "Point");
                 ("coordinates", PList [PFloat (-79.39); PFloat 43.66])])].

(** An accepted answer without a route. *)
Definition no_routes : pyval :=
  PDict [("code", PStr "Ok"); ("routes", PList [])].

(** An accepted answer whose second step has no maneuver location. *)
Definition broken_route : pyval :=
  osrm_of "Ok" (PFloat 2417.3) (PFloat 391.5)
    [step_of (-79.40) 43.66;
     PDict [("maneuver", PDict [("type", PStr "turn")])];
     step_of (-79.38) 43.65].

(** ** Outcomes that agree *)

(** Two outcomes with the same result and the same heap. *)
Definition agree {A} (o1 o2 : result A * world) : Prop :=
  fst o1 = fst o2 /\ heap (snd o1) = heap (snd o2).

(** A computation whose result and heap depend on the heap only, not on
    the log. *)
Definition heap_only {A} (m : M A) : Prop :=
  forall w1 w2, heap w1 = heap w2 -> agree (m w1) (m w2).

(** * viz: drawing a graph and a route (src/utils/viz.py)

    The four drawing functions work on an osmnx graph through osmnx,
    pandas and shapely.  A [graph] below is the graph as these functions
    see it: the value that each library expression they evaluate has for
    it, or the exception it raises.  A map is the list of what was added
    to it, in order. *)

Definition node := Z.

(** A coordinate tuple or list. *)
Definition point := list float.

(** A row of [nodes_frame]: [node['y']] and [node['x']]. *)
Record node_row : Type := NodeRow {
  row_y : float;
  row_x : float
}.

Section Viz.

(** What [ox.plot_graph_folium] and [ox.plot_route_folium] return. *)
Variable osmnx_map : Type.

Record graph : Type := Graph {
  graph_len : Z;
    (* len(G) *)
  center : result node;
    (* ox.stats.extended_stats(G, ecc=True)['center'][0] *)
  nodes_frame_loc : node -> result node_row;
    (* nodes_frame.loc[osmid] *)
  ways_frame_coords : list (list point);
    (* [*row['geometry'].coords] for the rows of ways_frame.iterrows(), in order *)
  ways_frame_query_xy : node -> node -> result (list float * list float);
    (* (ways_frame.query(f'u == {u} and v == {v}').to_dict('list')['geometry'])[0].coords.xy *)
  plot_graph_folium : result osmnx_map;
    (* ox.plot_graph_folium(G = G) *)
  plot_route_folium : list node -> result osmnx_map
    (* ox.plot_route_folium(G = G, route = route) *)
}.

(** What is added to a folium map. *)
Inductive folium_child : Type :=
| PolyLine (locations : list (list point)) (color : string) (weight : Z)
| CircleMarker (location : point) (fill_color : string) (radius : Z).

Record folium_map : Type := FoliumMap {
  location : point;
  zoom_start : Z;
  children : list folium_child
}.

(** [m.add_child(c)] *)
Definition add_child (m : folium_map) (c : folium_child) : folium_map :=
  FoliumMap (location m) (zoom_start m) (children m ++ [c]).

(** What is added to an ipyleaflet map. *)
Inductive leaflet_layer : Type :=
| Polyline (locations : list point) (color : string) (fill : bool) (weight : Z)
| Marker (location : point) (draggable : bool)
| AntPath (locations : list point) (dash_array : list Z) (delay : Z)
          (color pulse_color : string).

Record leaflet_map : Type := LeafletMap {
  map_center : point;
  zoom : Z;
  layers : list leaflet_layer
}.

(** [m.add_layer(l)] *)
Definition add_layer (m : leaflet_map) (l : leaflet_layer) : leaflet_map :=
  LeafletMap (map_center m) (zoom m) (layers m ++ [l]).

(** What the leaflet functions return: osmnx's folium map for a big graph,
    their own map otherwise. *)
Inductive leaflet_result : Type :=
| Osmnx (m : osmnx_map)
| Leaflet (m : leaflet_map).

(** The line that the leaflet functions print for a big graph. *)
Inductive printed : Type :=
| TooManyNodes (n : Z)
    (* f"The graph has {len(G)} which is a lot, we will use basic faster folium instead" *).

(** [zip(l[0:], l[1:])] *)
Definition pairs {A} (l : list A) : list (A * A) :=
  combine l (drop 1 l).

(** [[*zip([*y], [*x])]]: the points of an edge, each as (y, x). *)
Definition points_of (xy : list float * list float) : list point :=
  List.map (fun yx => [fst yx; snd yx]) (combine (snd xy) (fst xy)).

(** [[[u, v] for u, v in zip(line[0:], line[1:])]] for
    [line = [elem[::-1] for elem in coords]] *)
Definition way_lines (coords : list point) : list (list point) :=
  let line := List.map (@rev float) coords in
  List.map (fun uv => [fst uv; snd uv]) (pairs line).

(** A [for] loop whose body may raise, over the map that it builds. *)
Fixpoint for_result {A S} (xs : list A) (body : S -> A -> result S) (s : S) : result S :=
  match xs with
  | [] => Ok s
  | x :: rest => let? s' := body s x in for_result rest body s'
  end.

(** [if highlight:] an absent or empty list is false. *)
Definition truthy {A} (highlight : option (list A)) : bool :=
  match highlight with
  | Some (_ :: _) => true
  | _ => false
  end.

Definition draw_map_folium (G : graph) (highlight : option (list node)) (zoom : Z)
  : result folium_map :=
  let? center_osmid := center G in
  let ways_frame := ways_frame_coords G in
  let? center_node := nodes_frame_loc G center_osmid in
  let loc := [row_y center_node; row_x center_node] in
  let m := FoliumMap loc zoom [] in
  let m :=
    fold_left
      (fun m coords =>
         let lines := way_lines coords in
         let polyline := PolyLine lines "black" 2 in
         add_child m polyline)
      ways_frame m in
  if truthy highlight then
    for_result (default [] highlight)
      (fun m node_osmid =>
         let? node := nodes_frame_loc G node_osmid in
         let node_xy := [row_y node; row_x node] in
         let marker := CircleMarker node_xy "red" 5 in
         Ok (add_child m marker))
      m
  else Ok m.

(** The [try]/[except] of the route functions: the edge from [u] to [v],
    and on any exception the edge from [v] to [u]. *)
Definition edge_xy (G : graph) (u v : node) : result (list float * list float) :=
  match ways_frame_query_xy G u v with
  | Ok xy => Ok xy
  | Raise _ => ways_frame_query_xy G v u
  end.

Definition draw_route_folium (G : graph) (route : list node) (zoom : Z)
  : result folium_map :=
  let? center_osmid := center G in
  let? center_node := nodes_frame_loc G center_osmid in
  let loc := [row_y center_node; row_x center_node] in
  let m := FoliumMap loc zoom [] in
  let? route_0 :=
    match index_seq route 0 with Some n => Ok n | None => Raise IndexError end in
  let? start_node := nodes_frame_loc G route_0 in
  let? route_last :=
    match index_seq route (Z.of_nat (length route) - 1) with
    | Some n => Ok n
    | None => Raise IndexError
    end in
  let? end_node := nodes_frame_loc G route_last in
  let start_xy := [row_y start_node; row_x start_node] in
  let end_xy := [row_y end_node; row_x end_node] in
  let m := add_child m (CircleMarker start_xy "red" 5) in
  let m := add_child m (CircleMarker end_xy "red" 5) in
  for_result (pairs route)
    (fun m uv =>
       let? xy := edge_xy G (fst uv) (snd uv) in
       let points := points_of xy in
       Ok (fold_left
             (fun m uv => add_child m (PolyLine [[fst uv; snd uv]] "black" 2))
             (pairs points) m))
    m.

Definition draw_map_leaflet (G : graph) (highlight : option (list node)) (zoom : Z)
  : list printed * result leaflet_result :=
  if 1000 <=? graph_len G then
    ([TooManyNodes (graph_len G)],
     let? m := plot_graph_folium G in Ok (Osmnx m))
  else
    ([],
     let? center_osmid := center G in
     let ways_frame := ways_frame_coords G in
     let? center_node := nodes_frame_loc G center_osmid in
     let location := [row_y center_node; row_x center_node] in
     let m := LeafletMap location zoom [] in
     let m :=
       fold_left
         (fun m coords =>
            let lines := Polyline (List.map (@rev float) coords) "black" false 1 in
            add_layer m lines)
         ways_frame m in
     if truthy highlight then
       let? m :=
         for_result (default [] highlight)
           (fun m node_osmid =>
              let? node := nodes_frame_loc G node_osmid in
              let node_xy := [row_y node; row_x node] in
              let marker := Marker node_xy false in
              Ok (add_layer m marker))
           m in
       Ok (Leaflet m)
     else Ok (Leaflet m)).

Definition draw_route_leaflet (G : graph) (route : list node) (zoom : Z)
  : list printed * result leaflet_result :=
  if 1000 <=? graph_len G then
    ([TooManyNodes (graph_len G)],
     let? m := plot_route_folium G route in Ok (Osmnx m))
  else
    ([],
     let? center_osmid := center G in
     let? center_node := nodes_frame_loc G center_osmid in
     let location := [row_y center_node; row_x center_node] in
     let m := LeafletMap location zoom [] in
     let? route_0 :=
       match index_seq route 0 with Some n => Ok n | None => Raise IndexError end in
     let? start_node := nodes_frame_loc G route_0 in
     let? route_last :=
       match index_seq route (Z.of_nat (length route) - 1) with
       | Some n => Ok n
       | None => Raise IndexError
       end in
     let? end_node := nodes_frame_loc G route_last in
     let start_xy := [row_y start_node; row_x start_node] in
     let end_xy := [row_y end_node; row_x end_node] in
     let m := add_layer m (Marker start_xy false) in
     let m := add_layer m (Marker end_xy false) in
     let? m :=
       for_result (pairs route)
         (fun m uv =>
            let? xy := edge_xy G (fst uv) (snd uv) in
            let points := points_of xy in
            let ant_path := AntPath points [1; 10] 1000 "red" "black" in
            Ok (add_layer m ant_path))
         m in
     Ok (Leaflet m)).

End Viz.

Arguments Graph {osmnx_map}.
Arguments graph_len {osmnx_map}.
Arguments center {osmnx_map}.
Arguments nodes_frame_loc {osmnx_map}.
Arguments ways_frame_coords {osmnx_map}.
Arguments ways_frame_query_xy {osmnx_map}.
Arguments plot_graph_folium {osmnx_map}.
Arguments plot_route_folium {osmnx_map}.
Arguments Osmnx {osmnx_map}.
Arguments Leaflet {osmnx_map}.
Arguments draw_map_folium {osmnx_map}.
Arguments draw_route_folium {osmnx_map}.
Arguments draw_map_leaflet {osmnx_map}.
Arguments draw_route_leaflet {osmnx_map}.
Arguments edge_xy {osmnx_map}.

(** The default of the [zoom] parameter. *)
Definition default_zoom : Z := 16.

(** ** What the drawing functions add, by item *)

(** The segments drawn for the points of an edge. *)
Definition segments (points : list point) : list folium_child :=
  List.map (fun uv => PolyLine [[fst uv; snd uv]] "black" 2) (pairs points).

Definition circle_of (row : node_row) : folium_child :=
  CircleMarker [row_y row; row_x row] "red" 5.

Definition marker_of (row : node_row) : leaflet_layer :=
  Marker [row_y row; row_x row] false.

Definition ant_path_of (xy : list float * list float) : leaflet_layer :=
  AntPath (points_of xy) [1; 10] 1000 "red" "black".

(** ** A sample graph *)

(** Three nodes on a line; the frame has the edge from 1 to 2 and the edge
    from 3 to 2, not the edge from 2 to 3. *)
Definition sample_graph : graph unit :=
  Graph 3 (Ok 2)
    (fun n =>
       if n =? 1 then Ok (NodeRow 43.66 (-79.40))
       else if n =? 2 then Ok (NodeRow 43.655 (-79.39))
       else if n =? 3 then Ok (NodeRow 43.65 (-79.38))
       else Raise (KeyError (PInt n)))
    [[[(-79.40)%float; 43.66%float]; [(-79.39)%float; 43.655%float]];
     [[(-79.38)%float; 43.65%float]; [(-79.385)%float; 43.652%float];
      [(-79.39)%float; 43.655%float]]]
    (fun u v =>
       if (u =? 1) && (v =? 2)
       then Ok ([(-79.40)%float; (-79.39)%float], [43.66%float; 43.655%float])
       else if (u =? 3) && (v =? 2)
       then Ok ([(-79.38)%float; (-79.385)%float; (-79.39)%float],
                [43.65%float; 43.652%float; 43.655%float])
       else Raise IndexError)
    (Ok tt)
    (fun _ => Ok tt).

(** The same with 1000 nodes. *)
Definition big_graph : graph unit :=
  Graph 1000 (center sample_graph) (nodes_frame_loc sample_graph)
    (ways_frame_coords sample_graph) (ways_frame_query_xy sample_graph)
    (Ok tt) (fun _ => Ok tt).

(** * Properties *)

(** ** The embedding on small inputs *)

Example py_eq_numbers :
  py_eq (PBool true) (PInt 1) = true /\
  py_eq (PInt 1) (PFloat 1) = true /\
  py_eq (PFloat 0.5) (PInt 0) = false /\
  py_eq (PFloat 9007199254740992) (PInt 9007199254740993) = false /\
  py_eq (PInt 1) (PStr "1") = false.
Proof. repeat split; reflexivity. Qed.

Example py_eq_nan : py_eq (PFloat nan) (PFloat nan) = false.
Proof. reflexivity. Qed.

Example py_eq_containers :
  py_eq (PDict [("a", PInt 1); ("b", PInt 2)]) (PDict [("b", PInt 2); ("a", PInt 1)]) = true /\
  py_eq (PList [PInt 1]) (PTuple [PInt 1]) = false /\
  py_eq (PList [PInt 1; PInt 2]) (PList [PInt 1]) = false.
Proof. repeat split; reflexivity. Qed.

Example getitem_int_samples :
  getitem_int (PList [PInt 1; PInt 2; PInt 3]) (-1) = Ok (PInt 3) /\
  getitem_int (PList [PInt 1; PInt 2; PInt 3]) 3 = Raise IndexError /\
  getitem_int (PList []) 0 = Raise IndexError /\
  getitem_int (PStr "way") 0 = Ok (PStr "w") /\
  getitem_int (PDict []) 0 = Raise (KeyError (PInt 0)) /\
  getitem_int PNone 0 = Raise TypeError.
Proof. repeat split; reflexivity. Qed.

Example while_osm_type_samples :
  (let? place := feature (geocode_of toronto_features) 0 in
   while_osm_type (geocode_of toronto_features) "node" 0 place) =
    feature (geocode_of toronto_features) 1 /\
  (let? place := feature (geocode_of toronto_features) 0 in
   while_osm_type (geocode_of toronto_features) "way" 0 place) =
    feature (geocode_of toronto_features) 0 /\
  (let? place := feature (geocode_of toronto_features) 0 in
   while_osm_type (geocode_of toronto_features) "relation" 0 place) =
    Raise (ValueError (MsgNoPlaceOfType "relation")) /\
  while_osm_type (geocode_of toronto_features) "node" 0 (PStr "node") =
    Raise TypeError.
Proof. repeat split; vm_compute; reflexivity. Qed.

(** No candidate of the kind among several: the [ValueError] of the
    [except]. *)
Example poi_no_relation :
  fst (poi (always (Response 200 (Ok (geocode_of toronto_features))))
           "university of toronto" "canada" "relation" empty_world) =
    Raise (ValueError (MsgNoPlaceOfType "relation")).
Proof. vm_compute. reflexivity. Qed.

(** An answer with HTTP status 500 and code "Ok" in its body is accepted. *)
Example route_to_ignores_http_status :
  fst (route_to (always (Response 500 (Ok toronto_route))) 1%positive 2%positive
                default_mode toronto_world) = Ok 4%positive.
Proof. vm_compute. reflexivity. Qed.

(** ** The monad *)

Lemma bind_ok {A B} (m : M A) (k : A -> M B) (w w' : world) (a : A) :
  m w = (Ok a, w') -> bind m k w = k a w'.
Proof. unfold bind. intros ->. reflexivity. Qed.

Lemma bind_raise {A B} (m : M A) (k : A -> M B) (w w' : world) (e : exn) :
  m w = (Raise e, w') -> bind m k w = (Raise e, w').
Proof. unfold bind. intros ->. reflexivity. Qed.

Lemma bind_ok_inv {A B} (m : M A) (k : A -> M B) (w w'' : world) (b : B) :
  bind m k w = (Ok b, w'') ->
  exists a w', m w = (Ok a, w') /\ k a w' = (Ok b, w'').
Proof.
  unfold bind. destruct (m w) as [[a|e] w'] eqn:E; [eauto | discriminate].
Qed.

Lemma lift_ok_inv {A} (r : result A) (w w' : world) (a : A) :
  lift r w = (Ok a, w') -> r = Ok a /\ w' = w.
Proof. unfold lift. intros [= -> ->]. auto. Qed.

Lemma bind_result_ok_inv {A B} (r : result A) (k : A -> result B) (b : B) :
  bind_result r k = Ok b -> exists a, r = Ok a /\ k a = Ok b.
Proof. destruct r as [a|e]; simpl; [eauto | discriminate]. Qed.

(** ** Equality of values *)

Lemma py_eq_str (v : pyval) (t : string) : py_eq v (PStr t) = true <-> v = PStr t.
Proof.
  destruct v; simpl; try (split; [discriminate | discriminate]).
  rewrite String.eqb_eq. split; [intros -> | intros [= ->]]; reflexivity.
Qed.

Lemma py_ne_str (v : pyval) (t : string) : py_ne v (PStr t) = true <-> v <> PStr t.
Proof.
  unfold py_ne. rewrite negb_true_iff, <- not_true_iff_false, py_eq_str. reflexivity.
Qed.

Lemma py_eq_identifier (a b : pyval) :
  is_identifier a -> is_identifier b -> (py_eq a b = true <-> a = b).
Proof.
  destruct a, b; simpl; try contradiction; intros _ _.
  - rewrite Z.eqb_eq. split; [intros -> | intros [= ->]]; reflexivity.
  - split; discriminate.
  - split; discriminate.
  - rewrite String.eqb_eq. split; [intros -> | intros [= ->]]; reflexivity.
Qed.

(** ** Indexing the candidates *)

Lemma index_seq_nat {A} (l : list A) (n : nat) : index_seq l (Z.of_nat n) = l !! n.
Proof.
  unfold index_seq.
  destruct (Z.ltb_spec (Z.of_nat n) 0) as [Hneg|_]; [lia |].
  destruct (Z.leb_spec 0 (Z.of_nat n)) as [_|Hneg]; [| lia].
  destruct (Z.ltb_spec (Z.of_nat n) (Z.of_nat (length l))) as [Hlt|Hge]; simpl.
  - rewrite Nat2Z.id. reflexivity.
  - symmetry. apply lookup_ge_None. lia.
Qed.

Lemma feature_nat (response_json : pyval) (cs : list pyval) (n : nat) :
  getitem_str response_json "features" = Ok (PList cs) ->
  feature response_json (Z.of_nat n) =
    match cs !! n with Some c => Ok c | None => Raise IndexError end.
Proof.
  intros H. unfold feature. rewrite H. simpl. rewrite index_seq_nat. reflexivity.
Qed.

(** ** The loop *)

(** One turn of the loop, as the source reads. *)
Lemma while_osm_type_turn (response_json : pyval) (osm_type : string)
    (index : Z) (place : pyval) :
  while_osm_type response_json osm_type index place =
    let? kind := geocoding place "osm_type" in
    if py_ne kind (PStr osm_type) then
      match feature response_json (index + 1) with
      | Ok place' => while_osm_type response_json osm_type (index + 1) place'
      | Raise _ => Raise (ValueError (MsgNoPlaceOfType osm_type))
      end
    else Ok place.
Proof.
  simp while_osm_type.
  destruct (geocoding place "osm_type") as [kind|e]; simpl; [| reflexivity].
  destruct (py_ne kind (PStr osm_type)); simpl; [| reflexivity].
  destruct (feature response_json (index + 1)) as [place'|e]; reflexivity.
Qed.

Lemma drop_cons_inv {A} (l : list A) (n : nat) (x : A) (r : list A) :
  drop n l = x :: r -> l !! n = Some x /\ drop (S n) l = r.
Proof.
  intros H. split.
  - rewrite <- (Nat.add_0_r n), <- lookup_drop, H. reflexivity.
  - change (S n) with (1 + n)%nat. rewrite Nat.add_comm, <- drop_drop, H. reflexivity.
Qed.

(** The loop passes over candidates of another kind and leaves with the
    first one of the requested kind. *)
Lemma while_osm_type_skips (response_json : pyval) (osm_type : string)
    (cs before : list pyval) (place : pyval) (after : list pyval) :
  getitem_str response_json "features" = Ok (PList cs) ->
  Forall (other_kind osm_type) before ->
  geocoding place "osm_type" = Ok (PStr osm_type) ->
  forall (n : nat) (c : pyval),
    drop n cs = (before ++ place :: after)%list ->
    cs !! n = Some c ->
    while_osm_type response_json osm_type (Z.of_nat n) c = Ok place.
Proof.
  intros Hfs Hbefore Hplace. induction Hbefore as [| b bs [kind [Hkind Hne]] _ IH];
    intros n c Hdrop Hc; simpl in Hdrop;
    destruct (drop_cons_inv _ _ _ _ Hdrop) as [Hn Hrest];
    rewrite Hn in Hc; injection Hc as <-;
    rewrite while_osm_type_turn.
  - rewrite Hplace. simpl.
    replace (py_ne (PStr osm_type) (PStr osm_type)) with false; [reflexivity |].
    symmetry. apply not_true_iff_false. rewrite py_ne_str. congruence.
  - rewrite Hkind. simpl.
    apply py_ne_str in Hne. rewrite Hne.
    replace (Z.of_nat n + 1) with (Z.of_nat (S n)) by lia.
    rewrite (feature_nat _ _ _ Hfs).
    destruct (cs !! S n) as [c'|] eqn:Hc'.
    + apply IH; assumption.
    + apply lookup_ge_None in Hc'. rewrite drop_ge in Hrest by lia.
      destruct bs; discriminate.
Qed.

(** When every candidate from the current one on is of another kind, the
    loop runs off the end of the list and the [except] raises. *)
Lemma while_osm_type_exhausts (response_json : pyval) (osm_type : string)
    (cs : list pyval) :
  getitem_str response_json "features" = Ok (PList cs) ->
  forall (rest : list pyval) (n : nat) (c : pyval),
    drop n cs = c :: rest ->
    Forall (other_kind osm_type) (c :: rest) ->
    while_osm_type response_json osm_type (Z.of_nat n) c =
      Raise (ValueError (MsgNoPlaceOfType osm_type)).
Proof.
  intros Hfs rest. induction rest as [| c' rest IH]; intros n c Hdrop Hall;
    destruct (drop_cons_inv _ _ _ _ Hdrop) as [Hn Hrest];
    inversion Hall as [| ? ? [kind [Hkind Hne]] Hall']; subst;
    rewrite while_osm_type_turn, Hkind; simpl;
    apply py_ne_str in Hne; rewrite Hne;
    replace (Z.of_nat n + 1) with (Z.of_nat (S n)) by lia;
    rewrite (feature_nat _ _ _ Hfs).
  - replace (cs !! S n) with (@None pyval); [reflexivity |].
    symmetry. apply lookup_ge_None.
    apply (f_equal length) in Hrest. rewrite length_drop in Hrest. simpl in Hrest. lia.
  - destruct (drop_cons_inv _ _ _ _ Hrest) as [Hn' _]. rewrite Hn'.
    apply IH; assumption.
Qed.

(** ** Resolving a place *)

Section Resolve.

Variable requests_get : list event -> url -> result http_response.
Variable w : world.
Variables name country osm_type : string.

(** C3.  When the geocoding service answers with a status other than 200
    (404, say), resolving raises the ResolutionError of a failed lookup.
    The body is not parsed: the log gains the request and no [Json] event,
    and the outcome is the same whatever [response.json()] would give. *)
Theorem poi_bad_status_raises (response : http_response) :
  requests_get (log w) (NominatimSearch name country) = Ok response ->
  status_code response <> 200 ->
  poi requests_get name country osm_type w =
    (Raise (ValueError MsgDecodeAddress),
     World (<[fresh (dom (heap w)) := OInstance ∅]> (heap w))
           (log w ++ [Get (NominatimSearch name country)])) /\
  ResolutionError (ValueError MsgDecodeAddress).
Proof.
  intros Hget Hstatus. split; [| left; reflexivity].
  unfold poi, __init__, __geo_decode, bind, alloc, get. simpl.
  rewrite Hget.
  apply Z.eqb_neq in Hstatus. rewrite Hstatus. reflexivity.
Qed.

(** C1.  When the candidate list holds a candidate of the requested kind,
    resolving scans the candidates in order and returns a place built from
    the first one whose reported kind is the requested one: its label, its
    identifier and its coordinates.  The candidates ranked above it, all of
    another kind, are passed over, and so is everything after it. *)
Theorem poi_takes_first_of_kind (response : http_response) (response_json : pyval)
    (before : list pyval) (place : pyval) (after : list pyval)
    (label osm_id coordinates : pyval) (items : list pyval) :
  requests_get (log w) (NominatimSearch name country) = Ok response ->
  status_code response = 200 ->
  json response = Ok response_json ->
  getitem_str response_json "features" = Ok (PList (before ++ place :: after)) ->
  Forall (other_kind osm_type) before ->
  geocoding place "osm_type" = Ok (PStr osm_type) ->
  geocoding place "label" = Ok label ->
  geocoding place "osm_id" = Ok osm_id ->
  geometry_coordinates place = Ok coordinates ->
  py_iter coordinates = Ok items ->
  let self := fresh (dom (heap w)) in
  poi requests_get name country osm_type w =
    (Ok self,
     World (<[self := resolved label osm_id (PTuple items)]> (heap w))
           (log w ++ [Get (NominatimSearch name country); Json response])).
Proof.
  intros Hget Hstatus Hjson Hfs Hbefore Hkind Hlabel Hid Hcoords Hitems self.
  assert (Hc : exists c, (before ++ place :: after)%list !! 0%nat = Some c)
    by (destruct before; simpl; eauto).
  destruct Hc as [c Hc].
  pose proof (feature_nat _ _ 0 Hfs) as Hfirst. rewrite Hc in Hfirst.
  pose proof (while_osm_type_skips _ _ _ _ _ _ Hfs Hbefore Hkind 0%nat c eq_refl Hc)
    as Hloop.
  change (Z.of_nat 0) with 0 in Hfirst, Hloop. simpl in Hfirst.
  unfold poi, __init__, __geo_decode, bind, alloc, get, json_of, lift, setattr, ret.
  simpl. rewrite Hget, Hstatus. simpl.
  rewrite Hjson, Hfirst, Hloop, Hlabel. simpl.
  rewrite lookup_insert_eq, Hid. simpl.
  rewrite lookup_insert_eq, Hcoords. simpl. unfold py_tuple. rewrite Hitems. simpl.
  rewrite lookup_insert_eq. simpl.
  rewrite !insert_insert_eq, <- app_assoc. reflexivity.
Qed.

(** X1.  A list of candidates that are all of another kind, with at least
    one candidate: the loop is exhausted and the [except] raises the
    ResolutionError of a kind not found. *)
Lemma poi_no_candidate_of_kind (response : http_response) (response_json : pyval)
    (c : pyval) (rest : list pyval) :
  requests_get (log w) (NominatimSearch name country) = Ok response ->
  status_code response = 200 ->
  json response = Ok response_json ->
  getitem_str response_json "features" = Ok (PList (c :: rest)) ->
  Forall (other_kind osm_type) (c :: rest) ->
  poi requests_get name country osm_type w =
    (Raise (ValueError (MsgNoPlaceOfType osm_type)),
     World (<[fresh (dom (heap w)) := OInstance ∅]> (heap w))
           (log w ++ [Get (NominatimSearch name country); Json response])).
Proof.
  intros Hget Hstatus Hjson Hfs Hall.
  pose proof (feature_nat _ _ 0 Hfs) as Hfirst.
  pose proof (while_osm_type_exhausts _ _ _ Hfs rest 0%nat c eq_refl Hall) as Hloop.
  change (Z.of_nat 0) with 0 in Hfirst, Hloop. simpl in Hfirst.
  unfold poi, __init__, __geo_decode, bind, alloc, get, json_of, lift.
  simpl. rewrite Hget, Hstatus. simpl.
  rewrite Hjson, Hfirst, Hloop, <- app_assoc. reflexivity.
Qed.

(** C2, as the code has it.  On an empty candidate list the first
    candidate is indexed before the loop and outside its [try]: resolving
    raises [IndexError], which is not a ResolutionError. *)
Theorem poi_empty_features_index_error (response : http_response) (response_json : pyval) :
  requests_get (log w) (NominatimSearch name country) = Ok response ->
  status_code response = 200 ->
  json response = Ok response_json ->
  getitem_str response_json "features" = Ok (PList []) ->
  poi requests_get name country osm_type w =
    (Raise IndexError,
     World (<[fresh (dom (heap w)) := OInstance ∅]> (heap w))
           (log w ++ [Get (NominatimSearch name country); Json response])) /\
  ~ ResolutionError IndexError.
Proof.
  intros Hget Hstatus Hjson Hfs. split.
  - pose proof (feature_nat _ _ 0 Hfs) as Hfirst.
    change (Z.of_nat 0) with 0 in Hfirst. simpl in Hfirst.
    unfold poi, __init__, __geo_decode, bind, alloc, get, json_of, lift.
    simpl. rewrite Hget, Hstatus. simpl.
    rewrite Hjson, Hfirst, <- app_assoc. reflexivity.
  - intros [H | [t H]]; discriminate.
Qed.

End Resolve.

Lemma poi_bad_status_raises_witness :
  poi (always (Response 404 (Raise JSONDecodeError)))
      "university of toronto" "canada" default_osm_type empty_world =
    (Raise (ValueError MsgDecodeAddress),
     World (<[1%positive := OInstance ∅]> ∅)
           [Get (NominatimSearch "university of toronto" "canada")]) /\
  ResolutionError (ValueError MsgDecodeAddress).
Proof.
  apply (poi_bad_status_raises (always (Response 404 (Raise JSONDecodeError)))
           empty_world "university of toronto" "canada" default_osm_type
           (Response 404 (Raise JSONDecodeError))).
  - reflexivity.
  - simpl. lia.
Defined.

Lemma poi_takes_first_of_kind_witness :
  poi (always (Response 200 (Ok (geocode_of toronto_features))))
      "university of toronto" "canada" default_osm_type empty_world =
    (Ok 1%positive,
     World (<[1%positive := place_of "University of Toronto, St George Street" 12345
                              (-79.3973638)%float (43.6620257)%float]> ∅)
           [Get (NominatimSearch "university of toronto" "canada");
            Json (Response 200 (Ok (geocode_of toronto_features)))]).
Proof.
  apply (poi_takes_first_of_kind
           (always (Response 200 (Ok (geocode_of toronto_features))))
           empty_world "university of toronto" "canada" default_osm_type
           (Response 200 (Ok (geocode_of toronto_features)))
           (geocode_of toronto_features)
           [feature_of "way" 777 "University of Toronto (campus)" (-79.39)%float (43.66)%float]
           (feature_of "node" 12345 "University of Toronto, St George Street"
              (-79.3973638)%float (43.6620257)%float)
           [feature_of "node" 999 "University of Toronto Mississauga" (-79.66)%float (43.55)%float]
           (PStr "University of Toronto, St George Street") (PInt 12345)
           (PList [PFloat (-79.3973638); PFloat 43.6620257])
           [PFloat (-79.3973638); PFloat 43.6620257]);
    try reflexivity.
  repeat constructor. exists (PStr "way"). split; [reflexivity | discriminate].
Defined.

Lemma poi_empty_features_index_error_witness :
  poi (always (Response 200 (Ok (geocode_of []))))
      "atlantis" "nowhere" default_osm_type empty_world =
    (Raise IndexError,
     World (<[1%positive := OInstance ∅]> ∅)
           [Get (NominatimSearch "atlantis" "nowhere");
            Json (Response 200 (Ok (geocode_of [])))]) /\
  ~ ResolutionError IndexError.
Proof.
  apply (poi_empty_features_index_error
           (always (Response 200 (Ok (geocode_of []))))
           empty_world "atlantis" "nowhere" default_osm_type
           (Response 200 (Ok (geocode_of []))) (geocode_of []));
    reflexivity.
Defined.

(** ** Routing *)

Lemma getattr_has (h : gmap loc object) (lg : list event) (p : loc)
    (name : string) (v : pyval) :
  has_attr h p name v -> getattr p name (World h lg) = (Ok v, World h lg).
Proof.
  intros [attrs [Hp Hv]]. unfold getattr. simpl. rewrite Hp, Hv. reflexivity.
Qed.

(** What one turn of the [for] loop does. *)
Lemma route_step_body_waypoint (l : loc) (route_step : pyval) (w : world) :
  route_step_body l route_step w =
    match waypoint route_step with
    | Ok t => append l t w
    | Raise e => (Raise e, w)
    end.
Proof.
  unfold route_step_body, waypoint, maneuver_location, bind, lift.
  destruct (getitem_str route_step "maneuver") as [maneuver|]; simpl; [| reflexivity].
  destruct (getitem_str maneuver "location") as [location|]; simpl; [| reflexivity].
  destruct (reversed_slice location) as [reversed|]; simpl; [| reflexivity].
  destruct (py_tuple reversed); reflexivity.
Qed.

(** The [for] loop appends the waypoint of every step, in order. *)
Lemma for_each_appends (l : loc) (items waypoints : list pyval) :
  Forall2 (fun route_step t => waypoint route_step = Ok t) items waypoints ->
  forall (h : gmap loc object) (lg : list event) (acc : list pyval),
    h !! l = Some (OList acc) ->
    for_each items (route_step_body l) (World h lg) =
      (Ok tt, World (<[l := OList (acc ++ waypoints)]> h) lg).
Proof.
  induction 1 as [| route_step t items waypoints Ht _ IH]; intros h lg acc Hl; simpl.
  - rewrite app_nil_r, insert_id by assumption. reflexivity.
  - unfold bind at 1. rewrite route_step_body_waypoint, Ht.
    unfold append. simpl. rewrite Hl.
    rewrite (IH _ lg (acc ++ [t])%list) by apply lookup_insert_eq.
    rewrite insert_insert_eq, <- app_assoc. reflexivity.
Qed.

(** Reading back what [route_to] has written. *)
Lemma route_read_back (h : gmap loc object) (route_coords : loc)
    (waypoints : list pyval) (cost duration : pyval) :
  let h1 := <[route_coords := OList waypoints]> h in
  let r := fresh (dom h1) in
  let h2 := <[r := route_dict route_coords cost duration]> h1 in
  route_path h2 r = Some waypoints /\
  route_length h2 r = Some cost /\
  route_duration h2 r = Some duration.
Proof.
  intros h1 r h2.
  assert (Hne : r <> route_coords).
  { intros Heq. apply (is_fresh (dom h1)). fold r. rewrite Heq.
    apply elem_of_dom. unfold h1. rewrite lookup_insert_eq. eauto. }
  unfold route_path, route_length, route_duration, entry, h2.
  rewrite !lookup_insert_eq. simpl.
  rewrite lookup_insert_ne by assumption.
  unfold h1. rewrite lookup_insert_eq. auto.
Qed.

Section Route.

Variable requests_get : list event -> url -> result http_response.
Variable w : world.
Variables self destination : loc.
Variable mode : string.
Variables src dest lon1 lat1 lon2 lat2 : pyval.
Variable response : http_response.
Variable response_json : pyval.

Hypothesis Hsrc : has_attr (heap w) self "coordinates" src.
Hypothesis Hdest : has_attr (heap w) destination "coordinates" dest.
Hypothesis Hsrc01 : lon_lat src lon1 lat1.
Hypothesis Hdest01 : lon_lat dest lon2 lat2.
Hypothesis Hget :
  requests_get (log w) (OsrmRoute mode lon1 lat1 lon2 lat2) = Ok response.
Hypothesis Hjson : json response = Ok response_json.

(** An accepted answer with a first route and a first leg whose steps all
    have a maneuver location that can be reversed: the call returns a new
    dictionary over a new list of the waypoints. *)
Lemma route_to_ok (route cost duration : pyval) (items waypoints : list pyval) :
  getitem_str response_json "code" = Ok (PStr "Ok") ->
  first_route response_json = Ok route ->
  getitem_str route "distance" = Ok cost ->
  getitem_str route "duration" = Ok duration ->
  first_leg_steps route = Ok items ->
  Forall2 (fun route_step t => waypoint route_step = Ok t) items waypoints ->
  let route_coords := fresh (dom (heap w)) in
  let h := <[route_coords := OList waypoints]> (heap w) in
  route_to requests_get self destination mode w =
    (Ok (fresh (dom h)),
     World (<[fresh (dom h) := route_dict route_coords cost duration]> h)
           (log w ++ [Get (OsrmRoute mode lon1 lat1 lon2 lat2); Json response])).
Proof.
  intros Hcode Hroute Hcost Hduration Hsteps Hway route_coords h.
  destruct Hsrc01 as [Hs0 Hs1], Hdest01 as [Hd0 Hd1].
  unfold first_route in Hroute. unfold first_leg_steps in Hsteps.
  destruct (getitem_str route "legs") as [legs|] eqn:Hlegs; [| discriminate].
  simpl in Hsteps.
  destruct (getitem_int legs 0) as [leg|] eqn:Hleg; [| discriminate].
  simpl in Hsteps.
  destruct (getitem_str leg "steps") as [steps|] eqn:Hst; [| discriminate].
  simpl in Hsteps.
  unfold route_to. destruct w as [h0 lg]. simpl in *.
  rewrite (bind_ok _ _ _ _ _ (getattr_has _ _ _ _ _ Hsrc)).
  rewrite (bind_ok _ _ _ _ _ (getattr_has _ _ _ _ _ Hdest)).
  unfold bind, lift, get, json_of, alloc. simpl.
  rewrite Hs0, Hs1, Hd0, Hd1, Hget, Hjson, Hcode. simpl.
  rewrite Hroute, Hcost, Hduration, Hlegs. simpl. rewrite Hleg, Hst, Hsteps.
  rewrite (for_each_appends _ _ _ Hway _ _ []) by apply lookup_insert_eq.
  simpl. rewrite insert_insert_eq, <- app_assoc. reflexivity.
Qed.

(** C4.  When the code embedded in the answer's body is not "Ok",
    [route_to] raises the RoutingError and returns nothing: the heap is as
    it was, no route has been built.  The answer's HTTP status is never
    looked at: this holds for every [status_code response]. *)
Theorem route_to_not_ok_raises (code : pyval) :
  getitem_str response_json "code" = Ok code ->
  code <> PStr "Ok" ->
  route_to requests_get self destination mode w =
    (Raise (ValueError (MsgNoRoute src dest)),
     World (heap w)
           (log w ++ [Get (OsrmRoute mode lon1 lat1 lon2 lat2); Json response])) /\
  RoutingError (ValueError (MsgNoRoute src dest)).
Proof.
  intros Hcode Hne. split; [| exists src, dest; reflexivity].
  destruct Hsrc01 as [Hs0 Hs1], Hdest01 as [Hd0 Hd1].
  apply py_ne_str in Hne.
  unfold route_to. destruct w as [h0 lg]. simpl in *.
  rewrite (bind_ok _ _ _ _ _ (getattr_has _ _ _ _ _ Hsrc)).
  rewrite (bind_ok _ _ _ _ _ (getattr_has _ _ _ _ _ Hdest)).
  unfold bind, lift, get, json_of, raise. simpl.
  rewrite Hs0, Hs1, Hd0, Hd1, Hget, Hjson, Hcode. simpl.
  rewrite Hne, <- app_assoc. reflexivity.
Qed.

(** C5.  On an accepted answer, [route_to] takes the maneuver location of
    every step of the selected leg, in the order of the steps, and turns
    each [lon, lat] into the tuple (lat, lon). *)
Theorem route_to_path_swaps (route cost duration : pyval) (items : list pyval)
    (lonlats : list (pyval * pyval)) :
  getitem_str response_json "code" = Ok (PStr "Ok") ->
  first_route response_json = Ok route ->
  getitem_str route "distance" = Ok cost ->
  getitem_str route "duration" = Ok duration ->
  first_leg_steps route = Ok items ->
  Forall2 (fun route_step ll =>
             maneuver_location route_step = Ok (PList [fst ll; snd ll]))
          items lonlats ->
  exists r w',
    route_to requests_get self destination mode w = (Ok r, w') /\
    route_path (heap w') r =
      Some (List.map (fun ll => PTuple [snd ll; fst ll]) lonlats).
Proof.
  intros Hcode Hroute Hcost Hduration Hsteps Hlocs.
  assert (Hway : Forall2 (fun route_step t => waypoint route_step = Ok t) items
                   (List.map (fun ll => PTuple [snd ll; fst ll]) lonlats)).
  { clear - Hlocs. induction Hlocs as [| route_step ll items lonlats Hloc _ IH]; simpl.
    - constructor.
    - constructor; [| exact IH]. unfold waypoint. rewrite Hloc. reflexivity. }
  eexists _, _. split.
  - apply (route_to_ok route cost duration items _ Hcode Hroute Hcost Hduration Hsteps Hway).
  - apply route_read_back.
Qed.

(** C6.  On an accepted answer, [route_to] takes the first route of the
    answer and the first leg of that route; the dictionary it returns has
    that route's distance as its length, that route's duration as its
    duration, and the waypoints of that leg as its path. *)
Theorem route_to_first_route_first_leg (route : pyval) (more_routes : list pyval)
    (leg : pyval) (more_legs : list pyval) (steps cost duration : pyval)
    (items waypoints : list pyval) :
  getitem_str response_json "code" = Ok (PStr "Ok") ->
  getitem_str response_json "routes" = Ok (PList (route :: more_routes)) ->
  getitem_str route "distance" = Ok cost ->
  getitem_str route "duration" = Ok duration ->
  getitem_str route "legs" = Ok (PList (leg :: more_legs)) ->
  getitem_str leg "steps" = Ok steps ->
  py_iter steps = Ok items ->
  Forall2 (fun route_step t => waypoint route_step = Ok t) items waypoints ->
  exists r w',
    route_to requests_get self destination mode w = (Ok r, w') /\
    route_length (heap w') r = Some cost /\
    route_duration (heap w') r = Some duration /\
    route_path (heap w') r = Some waypoints.
Proof.
  intros Hcode Hroutes Hcost Hduration Hlegs Hsteps Hitems Hway.
  assert (Hroute : first_route response_json = Ok route)
    by (unfold first_route; rewrite Hroutes; reflexivity).
  assert (Hleg : first_leg_steps route = Ok items)
    by (unfold first_leg_steps; rewrite Hlegs; simpl; rewrite Hsteps; exact Hitems).
  eexists _, _. split.
  - apply (route_to_ok route cost duration items waypoints
             Hcode Hroute Hcost Hduration Hleg Hway).
  - simpl. pose proof (route_read_back (heap w) (fresh (dom (heap w))) waypoints
                         cost duration) as (Hp & Hl & Hd).
    auto.
Qed.

End Route.

Lemma toronto_src_attr : has_attr (heap toronto_world) 1%positive "coordinates" toronto_src.
Proof. eexists. split; reflexivity. Qed.

Lemma toronto_dest_attr : has_attr (heap toronto_world) 2%positive "coordinates" toronto_dest.
Proof. eexists. split; reflexivity. Qed.

Lemma route_to_not_ok_raises_witness :
  route_to (always (Response 200 (Ok no_route))) 1%positive 2%positive default_mode
           toronto_world =
    (Raise (ValueError (MsgNoRoute toronto_src toronto_dest)),
     World (heap toronto_world)
           [Get toronto_request; Json (Response 200 (Ok no_route))]) /\
  RoutingError (ValueError (MsgNoRoute toronto_src toronto_dest)).
Proof.
  apply (route_to_not_ok_raises (always (Response 200 (Ok no_route)))
           toronto_world 1%positive 2%positive default_mode
           toronto_src toronto_dest
           (PFloat (-79.3973638)) (PFloat 43.6620257) (PFloat (-79.3871)) (PFloat 43.6426)
           (Response 200 (Ok no_route)) no_route
           toronto_src_attr toronto_dest_attr
           (conj eq_refl eq_refl) (conj eq_refl eq_refl) eq_refl eq_refl
           (PStr "NoRoute") eq_refl).
  discriminate.
Defined.

Lemma route_to_path_swaps_witness :
  exists r w',
    route_to (always (Response 200 (Ok toronto_route))) 1%positive 2%positive
             default_mode toronto_world = (Ok r, w') /\
    route_path (heap w') r =
      Some [PTuple [PFloat 43.66; PFloat (-79.40)];
            PTuple [PFloat 43.65; PFloat (-79.38)]].
Proof.
  apply (route_to_path_swaps (always (Response 200 (Ok toronto_route)))
           toronto_world 1%positive 2%positive default_mode
           toronto_src toronto_dest
           (PFloat (-79.3973638)) (PFloat 43.6620257) (PFloat (-79.3871)) (PFloat 43.6426)
           (Response 200 (Ok toronto_route)) toronto_route
           toronto_src_attr toronto_dest_attr
           (conj eq_refl eq_refl) (conj eq_refl eq_refl) eq_refl eq_refl
           (PDict [("distance", PFloat 2417.3); ("duration", PFloat 391.5);
                   ("legs", PList [PDict [("steps",
                      PList [step_of (-79.40) 43.66; step_of (-79.38) 43.65])]])])
           (PFloat 2417.3) (PFloat 391.5)
           [step_of (-79.40) 43.66; step_of (-79.38) 43.65]
           [(PFloat (-79.40), PFloat 43.66); (PFloat (-79.38), PFloat 43.65)]
           eq_refl eq_refl eq_refl eq_refl eq_refl).
  repeat constructor.
Defined.

Lemma route_to_first_route_first_leg_witness :
  exists r w',
    route_to (always (Response 200 (Ok toronto_route))) 1%positive 2%positive
             default_mode toronto_world = (Ok r, w') /\
    route_length (heap w') r = Some (PFloat 2417.3) /\
    route_duration (heap w') r = Some (PFloat 391.5) /\
    route_path (heap w') r =
      Some [PTuple [PFloat 43.66; PFloat (-79.40)];
            PTuple [PFloat 43.65; PFloat (-79.38)]].
Proof.
  apply (route_to_first_route_first_leg (always (Response 200 (Ok toronto_route)))
           toronto_world 1%positive 2%positive default_mode
           toronto_src toronto_dest
           (PFloat (-79.3973638)) (PFloat 43.6620257) (PFloat (-79.3871)) (PFloat 43.6426)
           (Response 200 (Ok toronto_route)) toronto_route
           toronto_src_attr toronto_dest_attr
           (conj eq_refl eq_refl) (conj eq_refl eq_refl) eq_refl eq_refl
           (PDict [("distance", PFloat 2417.3); ("duration", PFloat 391.5);
                   ("legs", PList [PDict [("steps",
                      PList [step_of (-79.40) 43.66; step_of (-79.38) 43.65])]])])
           []
           (PDict [("steps", PList [step_of (-79.40) 43.66; step_of (-79.38) 43.65])])
           []
           (PList [step_of (-79.40) 43.66; step_of (-79.38) 43.65])
           (PFloat 2417.3) (PFloat 391.5)
           [step_of (-79.40) 43.66; step_of (-79.38) 43.65]
           [PTuple [PFloat 43.66; PFloat (-79.40)];
            PTuple [PFloat 43.65; PFloat (-79.38)]]
           eq_refl eq_refl eq_refl eq_refl eq_refl eq_refl eq_refl).
  repeat constructor.
Defined.

(** ** Identity *)

Lemma getattr_ok_inv (p : loc) (name : string) (w w' : world) (v : pyval) :
  getattr p name w = (Ok v, w') -> has_attr (heap w) p name v /\ w' = w.
Proof.
  unfold getattr, has_attr.
  destruct (heap w !! p) as [[attrs| |]|]; try discriminate.
  destruct (attrs !! name) as [v'|] eqn:Hv; [| discriminate].
  intros [= -> ->]. eauto.
Qed.

Section Identity.

Variable w : world.
Variables p q : loc.
Variables idp idq : pyval.

Hypothesis Hp : has_attr (heap w) p "osmid" idp.
Hypothesis Hq : has_attr (heap w) q "osmid" idq.

(** [__eq__] compares the two identifiers with [==], reads nothing else
    and writes nothing. *)
Lemma eq_compares_osmid : __eq__ p q w = (Ok (PBool (py_eq idp idq)), w).
Proof.
  unfold __eq__. destruct w as [h lg]. simpl in *.
  rewrite (bind_ok _ _ _ _ _ (getattr_has _ _ _ _ _ Hp)).
  rewrite (bind_ok _ _ _ _ _ (getattr_has _ _ _ _ _ Hq)).
  reflexivity.
Qed.

Lemma hash_returns_osmid : __hash__ p w = (Ok idp, w).
Proof.
  unfold __hash__. destruct w as [h lg]. apply getattr_has. exact Hp.
Qed.

(** C7.  Two places are equal exactly when their identifiers are equal,
    whatever their other fields hold: [p == q] is True when the
    identifiers are the same and False when they differ, and it is the same
    in every world that gives the two places these identifiers (with other
    addresses or coordinates, say). *)
Theorem eq_iff_same_identifier :
  is_identifier idp -> is_identifier idq ->
  (__eq__ p q w = (Ok (PBool true), w) <-> idp = idq) /\
  (__eq__ p q w = (Ok (PBool false), w) <-> idp <> idq) /\
  (forall w2 : world,
     has_attr (heap w2) p "osmid" idp -> has_attr (heap w2) q "osmid" idq ->
     fst (__eq__ p q w2) = fst (__eq__ p q w)).
Proof.
  intros Hip Hiq. rewrite eq_compares_osmid.
  pose proof (py_eq_identifier idp idq Hip Hiq) as Hrefl.
  split; [| split].
  - rewrite <- Hrefl. split; [intros [= ->] | intros ->]; reflexivity.
  - rewrite <- Hrefl. destruct (py_eq idp idq); split;
      intros H; try discriminate; try reflexivity; contradiction H; reflexivity.
  - intros [h2 lg2] [a2 [Hp2 Hv2]] [b2 [Hq2 Hw2]].
    unfold __eq__, bind, getattr, ret. simpl in *.
    rewrite Hp2, Hv2. simpl. rewrite Hq2, Hw2. reflexivity.
Qed.

(** C10.  The hash of a place is its raw identifier, so places that are
    equal have equal hashes. *)
Theorem hash_is_identifier :
  __hash__ p w = (Ok idp, w) /\
  (__eq__ p q w = (Ok (PBool true), w) ->
   exists hp hq,
     __hash__ p w = (Ok hp, w) /\ __hash__ q w = (Ok hq, w) /\
     py_eq hp hq = true /\
     (is_identifier hp -> is_identifier hq -> hp = hq)).
Proof.
  split; [exact hash_returns_osmid |].
  rewrite eq_compares_osmid. intros [= Heq].
  exists idp, idq. split; [exact hash_returns_osmid |]. split.
  - unfold __hash__. destruct w as [h lg]. apply getattr_has. exact Hq.
  - split; [exact Heq |]. intros Hip Hiq. apply py_eq_identifier; assumption.
Qed.

End Identity.

Lemma stale_attr_1 : has_attr (heap stale_world) 1%positive "osmid" (PInt 12345).
Proof. eexists. split; reflexivity. Qed.

Lemma stale_attr_2 : has_attr (heap stale_world) 2%positive "osmid" (PInt 12345).
Proof. eexists. split; reflexivity. Qed.

(** Two resolutions that the service answers with the same identifier under
    different labels give the two places of [stale_world]: different
    addresses, and equal. *)
Lemma stale_label_places_equal :
  exists w1,
    poi (scripted stale_answers) "university of toronto" "canada" default_osm_type
        empty_world = (Ok 1%positive, w1) /\
    poi (scripted stale_answers) "uoft" "canada" default_osm_type w1 =
      (Ok 2%positive, stale_world) /\
    has_attr (heap stale_world) 1%positive "address" (PStr "University of Toronto") /\
    has_attr (heap stale_world) 2%positive "address"
      (PStr "University of Toronto, St George Street") /\
    __eq__ 1%positive 2%positive stale_world = (Ok (PBool true), stale_world).
Proof.
  eexists. split; [vm_compute; reflexivity |].
  split; [vm_compute; reflexivity |].
  split; [eexists; split; reflexivity |].
  split; [eexists; split; reflexivity |].
  apply (eq_compares_osmid stale_world 1%positive 2%positive (PInt 12345) (PInt 12345)
           stale_attr_1 stale_attr_2).
Qed.

Lemma eq_iff_same_identifier_witness :
  (__eq__ 1%positive 2%positive stale_world = (Ok (PBool true), stale_world) <->
   PInt 12345 = PInt 12345) /\
  (__eq__ 1%positive 2%positive stale_world = (Ok (PBool false), stale_world) <->
   PInt 12345 <> PInt 12345) /\
  (forall w2 : world,
     has_attr (heap w2) 1%positive "osmid" (PInt 12345) ->
     has_attr (heap w2) 2%positive "osmid" (PInt 12345) ->
     fst (__eq__ 1%positive 2%positive w2) =
     fst (__eq__ 1%positive 2%positive stale_world)).
Proof.
  apply (eq_iff_same_identifier stale_world 1%positive 2%positive
           (PInt 12345) (PInt 12345) stale_attr_1 stale_attr_2 I I).
Defined.

Lemma hash_is_identifier_witness :
  __hash__ 1%positive stale_world = (Ok (PInt 12345), stale_world) /\
  (__eq__ 1%positive 2%positive stale_world = (Ok (PBool true), stale_world) ->
   exists hp hq,
     __hash__ 1%positive stale_world = (Ok hp, stale_world) /\
     __hash__ 2%positive stale_world = (Ok hq, stale_world) /\
     py_eq hp hq = true /\
     (is_identifier hp -> is_identifier hq -> hp = hq)).
Proof.
  apply (hash_is_identifier stale_world 1%positive 2%positive
           (PInt 12345) (PInt 12345) stale_attr_1 stale_attr_2).
Defined.

(** ** What a returned route holds *)

Lemma get_ok_inv (requests_get : list event -> url -> result http_response)
    (u : url) (w w' : world) (r : http_response) :
  get requests_get u w = (Ok r, w') ->
  requests_get (log w) u = Ok r /\ w' = World (heap w) (log w ++ [Get u]).
Proof. unfold get. intros [= -> <-]. auto. Qed.

Lemma json_of_ok_inv (r : http_response) (w w' : world) (v : pyval) :
  json_of r w = (Ok v, w') ->
  json r = Ok v /\ w' = World (heap w) (log w ++ [Json r]).
Proof. unfold json_of. intros [= -> <-]. auto. Qed.

(** If the [for] loop comes to its end, every step had a waypoint. *)
Lemma for_each_appends_inv (l : loc) (items : list pyval) :
  forall (w w' : world) (acc : list pyval),
    heap w !! l = Some (OList acc) ->
    for_each items (route_step_body l) w = (Ok tt, w') ->
    exists waypoints,
      Forall2 (fun route_step t => waypoint route_step = Ok t) items waypoints.
Proof.
  induction items as [| route_step items IH]; intros w w' acc Hl Hrun.
  - exists []. constructor.
  - simpl in Hrun. apply bind_ok_inv in Hrun as ([] & w1 & Hstep & Hrest).
    rewrite route_step_body_waypoint in Hstep.
    destruct (waypoint route_step) as [t|] eqn:Ht; [| discriminate].
    unfold append in Hstep. rewrite Hl in Hstep. injection Hstep as <-.
    destruct (IH _ _ (acc ++ [t])%list (lookup_insert_eq _ _ _) Hrest) as [ts Hts].
    exists (t :: ts). constructor; assumption.
Qed.

(** A call that returns has gone through every step of the source. *)
Lemma route_to_ok_inv (requests_get : list event -> url -> result http_response)
    (w : world) (self destination : loc) (mode : string) (r : loc) (w' : world) :
  route_to requests_get self destination mode w = (Ok r, w') ->
  exists route cost duration items waypoints,
    answered requests_get w self destination mode route /\
    getitem_str route "distance" = Ok cost /\
    getitem_str route "duration" = Ok duration /\
    first_leg_steps route = Ok items /\
    Forall2 (fun route_step t => waypoint route_step = Ok t) items waypoints.
Proof.
  unfold route_to. intros H.
  apply bind_ok_inv in H as (src & w1 & Hsrc & H).
  apply getattr_ok_inv in Hsrc as [Hsrc ->].
  apply bind_ok_inv in H as (dest & w1 & Hdest & H).
  apply getattr_ok_inv in Hdest as [Hdest ->].
  apply bind_ok_inv in H as (lon1 & w1 & Hs0 & H). apply lift_ok_inv in Hs0 as [Hs0 ->].
  apply bind_ok_inv in H as (lat1 & w1 & Hs1 & H). apply lift_ok_inv in Hs1 as [Hs1 ->].
  apply bind_ok_inv in H as (lon2 & w1 & Hd0 & H). apply lift_ok_inv in Hd0 as [Hd0 ->].
  apply bind_ok_inv in H as (lat2 & w1 & Hd1 & H). apply lift_ok_inv in Hd1 as [Hd1 ->].
  apply bind_ok_inv in H as (response & w1 & Hget & H).
  apply get_ok_inv in Hget as [Hget ->].
  apply bind_ok_inv in H as (response_json & w2 & Hjson & H).
  apply json_of_ok_inv in Hjson as [Hjson ->].
  apply bind_ok_inv in H as (code & w3 & Hcode & H).
  apply lift_ok_inv in Hcode as [Hcode ->].
  destruct (py_ne code (PStr "Ok")) eqn:Hne; [discriminate |].
  assert (code = PStr "Ok") as ->.
  { apply py_eq_str. unfold py_ne in Hne. apply negb_false_iff. exact Hne. }
  apply bind_ok_inv in H as (route & w3 & Hroute & H).
  apply lift_ok_inv in Hroute as [Hroute ->].
  apply bind_ok_inv in H as (cost & w3 & Hcost & H).
  apply lift_ok_inv in Hcost as [Hcost ->].
  apply bind_ok_inv in H as (duration & w3 & Hduration & H).
  apply lift_ok_inv in Hduration as [Hduration ->].
  apply bind_ok_inv in H as (leg & w3 & Hleg & H).
  apply lift_ok_inv in Hleg as [Hleg ->].
  apply bind_ok_inv in H as (steps & w3 & Hsteps & H).
  apply lift_ok_inv in Hsteps as [Hsteps ->].
  apply bind_ok_inv in H as (route_coords & w3 & Halloc & H).
  unfold alloc in Halloc. injection Halloc as <- <-.
  apply bind_ok_inv in H as (items & w4 & Hitems & H).
  apply lift_ok_inv in Hitems as [Hitems ->].
  apply bind_ok_inv in H as ([] & w4 & Hloop & _).
  apply for_each_appends_inv with (acc := []) in Hloop as [waypoints Hway];
    [| apply lookup_insert_eq].
  exists route, cost, duration, items, waypoints.
  split; [| split; [exact Hcost | split; [exact Hduration | split; [| exact Hway]]]].
  - exists src, dest, lon1, lat1, lon2, lat2, response, response_json.
    repeat split; assumption.
  - unfold first_leg_steps.
    apply bind_result_ok_inv in Hleg as (legs & Hlegs & Hleg).
    rewrite Hlegs. simpl. rewrite Hleg. simpl. rewrite Hsteps. exact Hitems.
Qed.

(** Every route that is returned carries what the service reported. *)
Lemma route_to_returns (requests_get : list event -> url -> result http_response)
    (w : world) (self destination : loc) (mode : string) (r : loc) (w' : world) :
  route_to requests_get self destination mode w = (Ok r, w') ->
  exists route cost duration items waypoints,
    answered requests_get w self destination mode route /\
    getitem_str route "distance" = Ok cost /\
    getitem_str route "duration" = Ok duration /\
    first_leg_steps route = Ok items /\
    Forall2 (fun route_step t => waypoint route_step = Ok t) items waypoints /\
    let route_coords := fresh (dom (heap w)) in
    let h := <[route_coords := OList waypoints]> (heap w) in
    r = fresh (dom h) /\
    heap w' = <[r := route_dict route_coords cost duration]> h.
Proof.
  intros H.
  destruct (route_to_ok_inv _ _ _ _ _ _ _ H)
    as (route & cost & duration & items & waypoints & Hans & Hcost & Hdur & Hsteps & Hway).
  exists route, cost, duration, items, waypoints.
  repeat (split; [assumption |]).
  destruct Hans as (src & dest & lon1 & lat1 & lon2 & lat2 & response & response_json
                    & Hsrc & Hdest & Hs & Hd & Hget & Hjson & Hcode & Hroute).
  pose proof (route_to_ok requests_get w self destination mode src dest
                lon1 lat1 lon2 lat2 response response_json Hsrc Hdest Hs Hd Hget Hjson
                route cost duration items waypoints Hcode Hroute Hcost Hdur Hsteps Hway)
    as Hrun.
  simpl in Hrun. rewrite Hrun in H. injection H as <- <-. simpl. auto.
Qed.

(** C8, amended.  A route that [route_to] returns has as its length the
    distance and as its duration the duration that the answer reports for
    its first route, whatever their sign, and a path with one waypoint for
    each step of that route's first leg, so a path that is empty only when
    that leg has no step. *)
Theorem route_to_carries_reported
    (requests_get : list event -> url -> result http_response)
    (w : world) (self destination : loc) (mode : string) (r : loc) (w' : world) :
  route_to requests_get self destination mode w = (Ok r, w') ->
  exists route cost duration items path,
    answered requests_get w self destination mode route /\
    getitem_str route "distance" = Ok cost /\
    getitem_str route "duration" = Ok duration /\
    first_leg_steps route = Ok items /\
    route_length (heap w') r = Some cost /\
    route_duration (heap w') r = Some duration /\
    route_path (heap w') r = Some path /\
    length path = length items /\
    (items <> [] -> path <> []).
Proof.
  intros H.
  destruct (route_to_returns _ _ _ _ _ _ _ H)
    as (route & cost & duration & items & waypoints
        & Hans & Hcost & Hdur & Hsteps & Hway & Hr & Hheap).
  exists route, cost, duration, items, waypoints.
  repeat (split; [assumption |]).
  pose proof (route_read_back (heap w) (fresh (dom (heap w))) waypoints cost duration)
    as (Hp & Hl & Hd).
  simpl in Hp, Hl, Hd. rewrite Hheap, Hr.
  repeat (split; [assumption |]).
  apply Forall2_length in Hway. split; [symmetry; exact Hway |].
  intros Hne ->. destruct items; [contradiction | discriminate].
Qed.

Lemma route_to_carries_reported_witness :
  exists route cost duration items path,
    answered (always (Response 200 (Ok odd_route))) toronto_world
      1%positive 2%positive default_mode route /\
    getitem_str route "distance" = Ok cost /\
    getitem_str route "duration" = Ok duration /\
    first_leg_steps route = Ok items /\
    route_length (heap odd_world) 4%positive = Some cost /\
    route_duration (heap odd_world) 4%positive = Some duration /\
    route_path (heap odd_world) 4%positive = Some path /\
    length path = length items /\
    (items <> [] -> path <> []).
Proof.
  apply (route_to_carries_reported (always (Response 200 (Ok odd_route)))
           toronto_world 1%positive 2%positive default_mode 4%positive odd_world).
  vm_compute. reflexivity.
Defined.

(** C8 as stated fails: an accepted answer may report a negative distance
    and duration and a leg without steps, and [route_to] returns them. *)
Lemma route_to_negative_empty_counterexample :
  ~ (forall (requests_get : list event -> url -> result http_response)
       (w : world) (self destination : loc) (mode : string) (r : loc) (w' : world),
       route_to requests_get self destination mode w = (Ok r, w') ->
       exists len dur path,
         route_length (heap w') r = Some len /\ nonneg len = true /\
         route_duration (heap w') r = Some dur /\ nonneg dur = true /\
         route_path (heap w') r = Some path /\ path <> []).
Proof.
  intros H.
  destruct (H (always (Response 200 (Ok odd_route))) toronto_world
              1%positive 2%positive default_mode 4%positive odd_world)
    as (len & dur & path & Hl & Hn & _).
  - vm_compute. reflexivity.
  - vm_compute in Hl. injection Hl as <-. vm_compute in Hn. discriminate.
Qed.

(** ** What a call leaves untouched *)

Lemma triple_bind {A B} (P : world -> Prop) (m : M A) (Q : A -> world -> Prop)
    (k : A -> M B) (R : B -> world -> Prop) (E : world -> Prop) :
  triple P m Q E -> (forall a, triple (Q a) (k a) R E) -> triple P (bind m k) R E.
Proof.
  intros Hm Hk w0 HP. unfold bind. specialize (Hm w0 HP).
  destruct (m w0) as [[a|e] w1]; [| exact Hm].
  apply (Hk a w1 Hm).
Qed.

Lemma triple_fact {A} (P : world -> Prop) (fact : Prop) (m : M A)
    (Q : A -> world -> Prop) (E : world -> Prop) :
  (fact -> triple P m Q E) -> triple (fun w0 => P w0 /\ fact) m Q E.
Proof. intros H w0 [HP Hfact]. apply (H Hfact w0 HP). Qed.

Section Frame.

Variable h0 : gmap loc object.

(** A computation that does not write to the heap keeps it. *)
Lemma triple_reads {A} (m : M A) :
  (forall w0, heap (snd (m w0)) = heap w0) ->
  triple (keeps h0) m (fun _ => keeps h0) (keeps h0).
Proof.
  intros Hm w0 HP. specialize (Hm w0). unfold keeps in *.
  destruct (m w0) as [[a|e] w1]; simpl in Hm; rewrite Hm; exact HP.
Qed.

Lemma getattr_reads (p : loc) (name : string) (w0 : world) :
  heap (snd (getattr p name w0)) = heap w0.
Proof.
  unfold getattr. destruct (heap w0 !! p) as [[attrs| |]|]; try reflexivity.
  destruct (attrs !! name); reflexivity.
Qed.

(** A new object is outside of [h0]. *)
Lemma triple_alloc (o : object) :
  triple (keeps h0) (alloc o) (fun l w1 => keeps h0 w1 /\ h0 !! l = None) (keeps h0).
Proof.
  intros w0 HP. unfold alloc, keeps in *. simpl.
  assert (Hfresh : h0 !! fresh (dom (heap w0)) = None).
  { destruct (h0 !! fresh (dom (heap w0))) as [o'|] eqn:E; [| reflexivity].
    exfalso. apply (is_fresh (dom (heap w0))).
    apply elem_of_dom. rewrite (HP _ _ E). eauto. }
  split; [| exact Hfresh].
  intros l o' Hl. rewrite lookup_insert_ne; [apply HP, Hl |].
  intros Heq. rewrite <- Heq, Hfresh in Hl. discriminate.
Qed.

(** Appending to a list outside of [h0] keeps [h0]. *)
Lemma triple_append (l : loc) (v : pyval) :
  h0 !! l = None ->
  triple (keeps h0) (append l v) (fun _ => keeps h0) (keeps h0).
Proof.
  intros Hl w0 HP. unfold append, keeps in *.
  destruct (heap w0 !! l) as [[| items |]|]; try exact HP.
  simpl. intros l' o' Hl'. rewrite lookup_insert_ne; [apply HP, Hl' |].
  intros Heq. rewrite <- Heq, Hl in Hl'. discriminate.
Qed.

Lemma triple_for_each {A} (xs : list A) (body : A -> M unit) :
  (forall x, triple (keeps h0) (body x) (fun _ => keeps h0) (keeps h0)) ->
  triple (keeps h0) (for_each xs body) (fun _ => keeps h0) (keeps h0).
Proof.
  intros Hbody. induction xs as [| x xs IH]; simpl.
  - intros w0 HP. exact HP.
  - eapply triple_bind; [apply Hbody | intros []; exact IH].
Qed.

Lemma triple_route_step_body (l : loc) (route_step : pyval) :
  h0 !! l = None ->
  triple (keeps h0) (route_step_body l route_step) (fun _ => keeps h0) (keeps h0).
Proof.
  intros Hl. unfold route_step_body.
  repeat (eapply triple_bind; [apply triple_reads; reflexivity | intros ?]).
  apply triple_append, Hl.
Qed.

(** [route_to] keeps every object that was there, and what it returns was
    not there. *)
Lemma triple_route_to (requests_get : list event -> url -> result http_response)
    (self destination : loc) (mode : string) :
  triple (keeps h0) (route_to requests_get self destination mode)
         (fun r w1 => keeps h0 w1 /\ h0 !! r = None) (keeps h0).
Proof.
  unfold route_to.
  eapply triple_bind; [apply triple_reads, getattr_reads | intros src].
  eapply triple_bind; [apply triple_reads, getattr_reads | intros dest].
  do 7 (eapply triple_bind; [apply triple_reads; reflexivity | intros ?]).
  destruct (py_ne _ _); [intros w0 HP; exact HP |].
  do 5 (eapply triple_bind; [apply triple_reads; reflexivity | intros ?]).
  eapply triple_bind; [apply triple_alloc | intros route_coords].
  apply triple_fact. intros Hnew.
  eapply triple_bind; [apply triple_reads; reflexivity | intros items].
  eapply triple_bind;
    [apply triple_for_each; intros x; apply triple_route_step_body, Hnew | intros []].
  apply triple_alloc.
Qed.

End Frame.

Lemma route_to_frame (requests_get : list event -> url -> result http_response)
    (w : world) (self destination : loc) (mode : string)
    (res : result loc) (w' : world) :
  route_to requests_get self destination mode w = (res, w') ->
  preserves (heap w) (heap w') /\
  (forall r, res = Ok r -> heap w !! r = None).
Proof.
  intros H.
  pose proof (triple_route_to (heap w) requests_get self destination mode w) as Ht.
  rewrite H in Ht. specialize (Ht (fun l o Hl => Hl)).
  destruct res as [r|e].
  - destruct Ht as [Hkeep Hnew]. split; [exact Hkeep |]. intros r' [= <-]. exact Hnew.
  - split; [exact Ht |]. discriminate.
Qed.

(** C9.  A call of [route_to], whether it returns or raises, leaves the
    origin and the destination as they were, with every attribute
    (address, identifier, coordinates), like every other object that was in
    the heap.  What it returns is a dictionary that was not in the heap
    before the call, over a list that was not there either. *)
Theorem route_to_leaves_places
    (requests_get : list event -> url -> result http_response)
    (w : world) (self destination : loc) (mode : string)
    (res : result loc) (w' : world) :
  route_to requests_get self destination mode w = (res, w') ->
  (forall o, heap w !! self = Some o -> heap w' !! self = Some o) /\
  (forall o, heap w !! destination = Some o -> heap w' !! destination = Some o) /\
  preserves (heap w) (heap w') /\
  (forall r, res = Ok r ->
     heap w !! r = None /\
     exists route_coords cost duration,
       heap w' !! r = Some (route_dict route_coords cost duration) /\
       heap w !! route_coords = None).
Proof.
  intros H. destruct (route_to_frame _ _ _ _ _ _ _ H) as [Hkeep Hnew].
  split; [intros o; apply Hkeep |].
  split; [intros o; apply Hkeep |].
  split; [exact Hkeep |].
  intros r ->. split; [apply Hnew; reflexivity |].
  destruct (route_to_returns _ _ _ _ _ _ _ H)
    as (route & cost & duration & items & waypoints & _ & _ & _ & _ & _ & Hr & Hheap).
  exists (fresh (dom (heap w))), cost, duration. split.
  - rewrite Hheap. apply lookup_insert_eq.
  - apply not_elem_of_dom, is_fresh.
Qed.

(** A second call does not hand out the route of the first one again, and
    leaves it as it is. *)
Lemma route_to_twice (requests_get : list event -> url -> result http_response)
    (w w1 w2 : world) (self destination : loc) (mode : string) (r1 r2 : loc) :
  route_to requests_get self destination mode w = (Ok r1, w1) ->
  route_to requests_get self destination mode w1 = (Ok r2, w2) ->
  r1 <> r2 /\ heap w2 !! r1 = heap w1 !! r1.
Proof.
  intros H1 H2.
  destruct (route_to_returns _ _ _ _ _ _ _ H1)
    as (route & cost & duration & items & waypoints & _ & _ & _ & _ & _ & _ & Hheap).
  simpl in Hheap.
  assert (Hr1 : heap w1 !! r1 = Some (route_dict (fresh (dom (heap w))) cost duration))
    by (rewrite Hheap; apply lookup_insert_eq).
  destruct (route_to_frame _ _ _ _ _ _ _ H2) as [Hkeep Hnew].
  split.
  - intros ->. rewrite (Hnew r2 eq_refl) in Hr1. discriminate.
  - rewrite (Hkeep _ _ Hr1), Hr1. reflexivity.
Qed.

Lemma route_to_leaves_places_witness :
  (forall o, heap toronto_world !! 1%positive = Some o ->
             heap odd_world !! 1%positive = Some o) /\
  (forall o, heap toronto_world !! 2%positive = Some o ->
             heap odd_world !! 2%positive = Some o) /\
  preserves (heap toronto_world) (heap odd_world) /\
  (forall r, Ok 4%positive = Ok r ->
     heap toronto_world !! r = None /\
     exists route_coords cost duration,
       heap odd_world !! r = Some (route_dict route_coords cost duration) /\
       heap toronto_world !! route_coords = None).
Proof.
  apply (route_to_leaves_places (always (Response 200 (Ok odd_route))) toronto_world
           1%positive 2%positive default_mode (Ok 4%positive) odd_world).
  vm_compute. reflexivity.
Defined.

(** * Further properties of the constructor *)

Lemma poi_no_candidate_of_kind_witness :
  poi (always (Response 200 (Ok (geocode_of toronto_features))))
      "university of toronto" "canada" "relation" empty_world =
    (Raise (ValueError (MsgNoPlaceOfType "relation")),
     World (<[fresh (dom (heap empty_world)) := OInstance ∅]> (heap empty_world))
           (log empty_world ++
            [Get (NominatimSearch "university of toronto" "canada");
             Json (Response 200 (Ok (geocode_of toronto_features)))])).
Proof.
  apply (poi_no_candidate_of_kind
           (always (Response 200 (Ok (geocode_of toronto_features))))
           empty_world "university of toronto" "canada" "relation"
           (Response 200 (Ok (geocode_of toronto_features)))
           (geocode_of toronto_features)
           (feature_of "way" 777 "University of Toronto (campus)" (-79.39) 43.66)
           [feature_of "node" 12345 "University of Toronto, St George Street"
              (-79.3973638) 43.6620257;
            feature_of "node" 999 "University of Toronto Mississauga" (-79.66) 43.55]
           eq_refl eq_refl eq_refl eq_refl).
  repeat constructor;
    [exists (PStr "way") | exists (PStr "node") | exists (PStr "node")];
    (split; [reflexivity | discriminate]).
Defined.

(** The loop passes over candidates of another kind and goes on from the
    candidate after them. *)
Lemma while_osm_type_passes (response_json : pyval) (osm_type : string)
    (cs before : list pyval) :
  getitem_str response_json "features" = Ok (PList cs) ->
  Forall (other_kind osm_type) before ->
  forall (n : nat) (c x : pyval) (after : list pyval),
    drop n cs = (before ++ x :: after)%list ->
    cs !! n = Some c ->
    while_osm_type response_json osm_type (Z.of_nat n) c =
      while_osm_type response_json osm_type (Z.of_nat (n + length before)) x.
Proof.
  intros Hfs Hbefore. induction Hbefore as [| b bs [kind [Hkind Hne]] _ IH];
    intros n c x after Hdrop Hc; simpl in Hdrop;
    destruct (drop_cons_inv _ _ _ _ Hdrop) as [Hn Hrest];
    rewrite Hn in Hc; injection Hc as <-.
  - simpl. rewrite Nat.add_0_r. reflexivity.
  - rewrite while_osm_type_turn, Hkind. simpl.
    apply py_ne_str in Hne. rewrite Hne.
    replace (Z.of_nat n + 1) with (Z.of_nat (S n)) by lia.
    rewrite (feature_nat _ _ _ Hfs).
    destruct (cs !! S n) as [c'|] eqn:Hc'.
    + rewrite (IH (S n) c' x after Hrest Hc'). simpl.
      replace (n + S (length bs))%nat with (S (n + length bs)) by lia. reflexivity.
    + apply lookup_ge_None in Hc'. rewrite drop_ge in Hrest by lia.
      destruct bs; discriminate.
Qed.

Section ResolveMore.

Variable requests_get : list event -> url -> result http_response.
Variable w : world.
Variables name country osm_type : string.
Variable response : http_response.

Hypothesis Hget : requests_get (log w) (NominatimSearch name country) = Ok response.
Hypothesis Hstatus : status_code response = 200.

Variable response_json : pyval.

Hypothesis Hjson : json response = Ok response_json.

(** X2.  A candidate that reports no kind and is ranked above every
    candidate of the requested kind ends the resolution: the loop's test
    is outside the [try], so what reading the kind raises (a [KeyError],
    say) reaches the caller, although a candidate of the kind follows. *)
Theorem poi_unreadable_candidate_raises (before : list pyval) (bad : pyval)
    (after : list pyval) (e : exn) :
  getitem_str response_json "features" = Ok (PList (before ++ bad :: after)) ->
  Forall (other_kind osm_type) before ->
  geocoding bad "osm_type" = Raise e ->
  poi requests_get name country osm_type w =
    (Raise e,
     World (<[fresh (dom (heap w)) := OInstance ∅]> (heap w))
           (log w ++ [Get (NominatimSearch name country); Json response])).
Proof.
  intros Hfs Hbefore Hbad.
  assert (Hc : exists c, (before ++ bad :: after)%list !! 0%nat = Some c)
    by (destruct before; simpl; eauto).
  destruct Hc as [c Hc].
  pose proof (feature_nat _ _ 0 Hfs) as Hfirst. rewrite Hc in Hfirst.
  pose proof (while_osm_type_passes _ _ _ _ Hfs Hbefore 0%nat c bad after eq_refl Hc)
    as Hloop.
  rewrite while_osm_type_turn with (place := bad), Hbad in Hloop.
  change (Z.of_nat 0) with 0 in Hfirst, Hloop. simpl in Hfirst, Hloop.
  unfold poi, __init__, __geo_decode, bind, alloc, get, json_of, lift.
  simpl. rewrite Hget, Hstatus. simpl.
  rewrite Hjson, Hfirst, Hloop, <- app_assoc. reflexivity.
Qed.

(** X3.  When the candidate the loop leaves with lacks a label, an
    identifier or coordinates that can be iterated, the constructor raises
    what reading it raises and returns no place; it does not go on to a
    later candidate of the kind. *)
Theorem poi_incomplete_candidate_raises (before : list pyval) (place : pyval)
    (after : list pyval) (e : exn) :
  getitem_str response_json "features" = Ok (PList (before ++ place :: after)) ->
  Forall (other_kind osm_type) before ->
  geocoding place "osm_type" = Ok (PStr osm_type) ->
  place_fields place = Raise e ->
  fst (poi requests_get name country osm_type w) = Raise e.
Proof.
  intros Hfs Hbefore Hkind Hfields.
  assert (Hc : exists c, (before ++ place :: after)%list !! 0%nat = Some c)
    by (destruct before; simpl; eauto).
  destruct Hc as [c Hc].
  pose proof (feature_nat _ _ 0 Hfs) as Hfirst. rewrite Hc in Hfirst.
  pose proof (while_osm_type_skips _ _ _ _ _ _ Hfs Hbefore Hkind 0%nat c eq_refl Hc)
    as Hloop.
  change (Z.of_nat 0) with 0 in Hfirst, Hloop. simpl in Hfirst.
  unfold place_fields in Hfields.
  unfold poi, __init__, __geo_decode, bind, alloc, get, json_of, lift, setattr, ret.
  simpl. rewrite Hget, Hstatus. simpl. rewrite Hjson, Hfirst, Hloop.
  destruct (geocoding place "label") as [label|]; simpl in *;
    [| injection Hfields as <-; reflexivity].
  rewrite lookup_insert_eq.
  destruct (geocoding place "osm_id") as [osm_id|]; simpl in *;
    [| injection Hfields as <-; reflexivity].
  rewrite lookup_insert_eq.
  destruct (let? coordinates := geometry_coordinates place in py_tuple coordinates)
    as [coordinates|]; simpl in *; [discriminate |].
  injection Hfields as <-. reflexivity.
Qed.

(** X4.  What indexing the first candidate raises is what the caller gets:
    a [KeyError] when the body has no features, a [TypeError] when the body
    or its features cannot be indexed, an [IndexError] when there is no
    first candidate; it is never the [ValueError] of the loop. *)
Theorem poi_first_candidate_error (e : exn) :
  feature response_json 0 = Raise e ->
  poi requests_get name country osm_type w =
    (Raise e,
     World (<[fresh (dom (heap w)) := OInstance ∅]> (heap w))
           (log w ++ [Get (NominatimSearch name country); Json response])) /\
  (e = IndexError \/ e = TypeError \/ exists k, e = KeyError k).
Proof.
  intros Hfirst. split.
  - unfold poi, __init__, __geo_decode, bind, alloc, get, json_of, lift.
    simpl. rewrite Hget, Hstatus. simpl.
    rewrite Hjson, Hfirst, <- app_assoc. reflexivity.
  - unfold feature, getitem_str in Hfirst.
    destruct response_json as [| | | | | | | d]; simpl in Hfirst;
      try (injection Hfirst as <-; auto).
    destruct (assoc "features" d) as [features|]; simpl in Hfirst;
      [| injection Hfirst as <-; eauto].
    unfold getitem_int in Hfirst.
    destruct features; try (injection Hfirst as <-; eauto);
      match type of Hfirst with
      | context [index_seq ?l 0] => destruct (index_seq l 0)
      end; try discriminate; injection Hfirst as <-; auto.
Qed.

End ResolveMore.

Lemma poi_unreadable_candidate_raises_witness :
  poi (always (Response 200 (Ok (geocode_of
         [feature_of "way" 777 "University of Toronto (campus)" (-79.39) 43.66;
          unreadable_feature;
          feature_of "node" 12345 "University of Toronto" (-79.3973638) 43.6620257]))))
      "university of toronto" "canada" default_osm_type empty_world =
    (Raise (KeyError (PStr "osm_type")),
     World (<[fresh (dom (heap empty_world)) := OInstance ∅]> (heap empty_world))
           (log empty_world ++
            [Get (NominatimSearch "university of toronto" "canada");
             Json (Response 200 (Ok (geocode_of
               [feature_of "way" 777 "University of Toronto (campus)" (-79.39) 43.66;
                unreadable_feature;
                feature_of "node" 12345 "University of Toronto"
                  (-79.3973638) 43.6620257])))])).
Proof.
  apply (poi_unreadable_candidate_raises
           (always (Response 200 (Ok (geocode_of
              [feature_of "way" 777 "University of Toronto (campus)" (-79.39) 43.66;
               unreadable_feature;
               feature_of "node" 12345 "University of Toronto" (-79.3973638) 43.6620257]))))
           empty_world "university of toronto" "canada" default_osm_type
           _ eq_refl eq_refl _ eq_refl
           [feature_of "way" 777 "University of Toronto (campus)" (-79.39) 43.66]
           unreadable_feature
           [feature_of "node" 12345 "University of Toronto" (-79.3973638) 43.6620257]
           (KeyError (PStr "osm_type")) eq_refl);
    [| reflexivity].
  repeat constructor. exists (PStr "way"). split; [reflexivity | discriminate].
Defined.

Lemma poi_incomplete_candidate_raises_witness :
  fst (poi (always (Response 200 (Ok (geocode_of
              [anonymous_feature;
               feature_of "node" 12345 "University of Toronto"
                 (-79.3973638) 43.6620257]))))
           "somewhere" "canada" default_osm_type empty_world) =
    Raise (KeyError (PStr "osm_id")).
Proof.
  apply (poi_incomplete_candidate_raises
           (always (Response 200 (Ok (geocode_of
              [anonymous_feature;
               feature_of "node" 12345 "University of Toronto"
                 (-79.3973638) 43.6620257]))))
           empty_world "somewhere" "canada" default_osm_type
           _ eq_refl eq_refl _ eq_refl
           [] anonymous_feature
           [feature_of "node" 12345 "University of Toronto" (-79.3973638) 43.6620257]
           (KeyError (PStr "osm_id")) eq_refl);
    [constructor | reflexivity | reflexivity].
Defined.

Lemma poi_first_candidate_error_witness :
  poi (always (Response 200 (Ok (PDict [("error", PStr "Unable to geocode")]))))
      "atlantis" "nowhere" default_osm_type empty_world =
    (Raise (KeyError (PStr "features")),
     World (<[fresh (dom (heap empty_world)) := OInstance ∅]> (heap empty_world))
           (log empty_world ++
            [Get (NominatimSearch "atlantis" "nowhere");
             Json (Response 200 (Ok (PDict [("error", PStr "Unable to geocode")])))])) /\
  (KeyError (PStr "features") = IndexError \/
   KeyError (PStr "features") = TypeError \/
   exists k, KeyError (PStr "features") = KeyError k).
Proof.
  apply (poi_first_candidate_error
           (always (Response 200 (Ok (PDict [("error", PStr "Unable to geocode")]))))
           empty_world "atlantis" "nowhere" default_osm_type
           _ eq_refl eq_refl _ eq_refl (KeyError (PStr "features")) eq_refl).
Defined.

(** ** What a returned place was built from *)

Lemma feature_lt (response_json : pyval) (i : Z) (x : pyval) :
  feature response_json i = Ok x -> i < features_length response_json.
Proof.
  unfold feature, features_length, getitem_int.
  destruct (getitem_str response_json "features") as [features|]; [| discriminate].
  assert (Hseq : forall (l : list pyval), is_Some (index_seq l i) ->
                   i < Z.of_nat (length l)).
  { intros l [y Hy]. unfold index_seq in Hy.
    destruct (Z.ltb_spec i 0); [lia |].
    destruct (Z.leb_spec 0 i); destruct (Z.ltb_spec i (Z.of_nat (length l)));
      simpl in Hy; try discriminate; lia. }
  simpl. destruct features; try discriminate; simpl;
    match goal with
    | |- context [index_seq ?l i] =>
        destruct (index_seq l i) eqn:E; [intros _; apply Hseq; rewrite E; eauto
                                        | discriminate]
    end.
Qed.

(** The loop leaves only with a candidate of the requested kind, found at or
    after the one it was entered with, and every candidate it went past
    reports another kind. *)
Lemma while_osm_type_sound (response_json : pyval) (osm_type : string) :
  forall (n : nat) (i : Z) (place p : pyval),
    (Z.to_nat (features_length response_json - i) <= n)%nat ->
    feature response_json i = Ok place ->
    while_osm_type response_json osm_type i place = Ok p ->
    exists k : nat,
      feature response_json (i + Z.of_nat k) = Ok p /\
      geocoding p "osm_type" = Ok (PStr osm_type) /\
      forall j : nat, (j < k)%nat ->
        exists c, feature response_json (i + Z.of_nat j) = Ok c /\
                  other_kind osm_type c.
Proof.
  induction n as [| n IH]; intros i place p Hn Hentry Hloop;
    pose proof (feature_lt _ _ _ Hentry) as Hlt; [lia |].
  rewrite while_osm_type_turn in Hloop.
  destruct (geocoding place "osm_type") as [kind|] eqn:Hkind; [| discriminate].
  simpl in Hloop.
  destruct (py_ne kind (PStr osm_type)) eqn:Hne.
  - destruct (feature response_json (i + 1)) as [place'|] eqn:Hnext; [| discriminate].
    destruct (IH (i + 1) place' p ltac:(lia) Hnext Hloop) as (k & Hk & Hp & Hpast).
    exists (S k). split; [| split].
    + rewrite <- Hk. f_equal. lia.
    + exact Hp.
    + intros [| j] Hj.
      * exists place. rewrite Z.add_0_r. split; [exact Hentry |].
        exists kind. split; [exact Hkind |]. apply py_ne_str, Hne.
      * destruct (Hpast j ltac:(lia)) as (c & Hc & Hother).
        exists c. split; [| exact Hother]. rewrite <- Hc. f_equal. lia.
  - injection Hloop as <-. exists 0%nat. rewrite Z.add_0_r.
    split; [exact Hentry |]. split; [| intros j Hj; lia].
    rewrite Hkind. f_equal. apply py_eq_str.
    unfold py_ne in Hne. apply negb_false_iff, Hne.
Qed.

Lemma setattr_ok_inv (o : loc) (name : string) (v : pyval) (w w' : world) :
  setattr o name v w = (Ok tt, w') ->
  exists attrs,
    heap w !! o = Some (OInstance attrs) /\
    w' = World (<[o := OInstance (<[name := v]> attrs)]> (heap w)) (log w).
Proof.
  unfold setattr. destruct (heap w !! o) as [[attrs| |]|]; try discriminate.
  intros [= <-]. eauto.
Qed.

(** A call of the constructor that returns has gone through every step of
    the source. *)
Lemma poi_ok_inv
    (requests_get : list event -> url -> result http_response) (w : world)
    (name country osm_type : string) (self : loc) (w' : world) :
  poi requests_get name country osm_type w = (Ok self, w') ->
  exists response response_json (k : nat) place label osm_id coordinates,
    requests_get (log w) (NominatimSearch name country) = Ok response /\
    status_code response = 200 /\
    json response = Ok response_json /\
    feature response_json (Z.of_nat k) = Ok place /\
    geocoding place "osm_type" = Ok (PStr osm_type) /\
    (forall j : nat, (j < k)%nat ->
       exists c, feature response_json (Z.of_nat j) = Ok c /\ other_kind osm_type c) /\
    place_fields place = Ok (label, osm_id, coordinates) /\
    self = fresh (dom (heap w)) /\
    heap w' = <[self := resolved label osm_id coordinates]> (heap w).
Proof.
  unfold poi, __init__, __geo_decode. intros H.
  apply bind_ok_inv in H as (self' & w1 & Halloc & H).
  unfold alloc in Halloc. injection Halloc as <- <-.
  apply bind_ok_inv in H as ([] & w2 & H & Hret).
  unfold ret in Hret. injection Hret as <- <-.
  apply bind_ok_inv in H as (response & w1 & Hget & H).
  apply get_ok_inv in Hget as [Hget ->]. simpl in Hget.
  destruct (status_code response =? 200) eqn:Hstatus; [| discriminate].
  apply Z.eqb_eq in Hstatus. simpl in H.
  apply bind_ok_inv in H as (response_json & w1 & Hjson & H).
  apply json_of_ok_inv in Hjson as [Hjson ->].
  apply bind_ok_inv in H as (first & w1 & Hfirst & H).
  apply lift_ok_inv in Hfirst as [Hfirst ->].
  apply bind_ok_inv in H as (place & w1 & Hloop & H).
  apply lift_ok_inv in Hloop as [Hloop ->].
  apply bind_ok_inv in H as (label & w1 & Hlabel & H).
  apply lift_ok_inv in Hlabel as [Hlabel ->].
  apply bind_ok_inv in H as ([] & w1 & Hset1 & H).
  apply setattr_ok_inv in Hset1 as (attrs1 & Hattrs1 & ->).
  simpl in Hattrs1. rewrite lookup_insert_eq in Hattrs1. injection Hattrs1 as <-.
  apply bind_ok_inv in H as (osm_id & w1 & Hid & H).
  apply lift_ok_inv in Hid as [Hid ->].
  apply bind_ok_inv in H as ([] & w1 & Hset2 & H).
  apply setattr_ok_inv in Hset2 as (attrs2 & Hattrs2 & ->).
  simpl in Hattrs2. rewrite lookup_insert_eq in Hattrs2. injection Hattrs2 as <-.
  apply bind_ok_inv in H as (coordinates & w1 & Hcoords & H).
  apply lift_ok_inv in Hcoords as [Hcoords ->].
  apply setattr_ok_inv in H as (attrs3 & Hattrs3 & ->).
  simpl in Hattrs3. rewrite lookup_insert_eq in Hattrs3. injection Hattrs3 as <-.
  destruct (while_osm_type_sound response_json osm_type _ 0 first place
              (Nat.le_refl _) Hfirst Hloop) as (k & Hk & Hkind & Hpast).
  exists response, response_json, k, place, label, osm_id, coordinates.
  repeat (split; [assumption |]).
  split; [| split; [reflexivity |]].
  - unfold place_fields. rewrite Hlabel, Hid. simpl. rewrite Hcoords. reflexivity.
  - simpl. rewrite !insert_insert_eq. reflexivity.
Qed.

(** X5.  Whenever the constructor returns, the service had answered with
    status 200, the new instance holds the label, the identifier and the
    coordinates of a candidate that reports the requested kind, and every
    candidate ranked above that one reports another kind: a place is never
    built from a candidate of another kind, nor from a later one of the
    kind. *)
Theorem poi_returns_first_of_kind
    (requests_get : list event -> url -> result http_response) (w : world)
    (name country osm_type : string) (self : loc) (w' : world) :
  poi requests_get name country osm_type w = (Ok self, w') ->
  exists response response_json (k : nat) place label osm_id coordinates,
    requests_get (log w) (NominatimSearch name country) = Ok response /\
    status_code response = 200 /\
    json response = Ok response_json /\
    feature response_json (Z.of_nat k) = Ok place /\
    geocoding place "osm_type" = Ok (PStr osm_type) /\
    (forall j : nat, (j < k)%nat ->
       exists c, feature response_json (Z.of_nat j) = Ok c /\ other_kind osm_type c) /\
    place_fields place = Ok (label, osm_id, coordinates) /\
    self = fresh (dom (heap w)) /\
    heap w' = <[self := resolved label osm_id coordinates]> (heap w).
Proof. apply poi_ok_inv. Qed.

Lemma poi_returns_first_of_kind_witness :
  exists response response_json (k : nat) place label osm_id coordinates,
    always (Response 200 (Ok (geocode_of toronto_features))) (log empty_world)
      (NominatimSearch "university of toronto" "canada") = Ok response /\
    status_code response = 200 /\
    json response = Ok response_json /\
    feature response_json (Z.of_nat k) = Ok place /\
    geocoding place "osm_type" = Ok (PStr default_osm_type) /\
    (forall j : nat, (j < k)%nat ->
       exists c, feature response_json (Z.of_nat j) = Ok c /\
                 other_kind default_osm_type c) /\
    place_fields place = Ok (label, osm_id, coordinates) /\
    1%positive = fresh (dom (heap empty_world)) /\
    heap (World (<[1%positive := place_of "University of Toronto, St George Street" 12345
                                   (-79.3973638) 43.6620257]> ∅)
                [Get (NominatimSearch "university of toronto" "canada");
                 Json (Response 200 (Ok (geocode_of toronto_features)))]) =
      <[1%positive := resolved label osm_id coordinates]> (heap empty_world).
Proof.
  apply (poi_returns_first_of_kind
           (always (Response 200 (Ok (geocode_of toronto_features))))
           empty_world "university of toronto" "canada" default_osm_type 1%positive).
  vm_compute. reflexivity.
Defined.

(** ** What the constructor writes and asks *)

Lemma triple_conseq {A} (P P' : world -> Prop) (m : M A)
    (Q Q' : A -> world -> Prop) (E E' : world -> Prop) :
  (forall w0, P' w0 -> P w0) ->
  (forall a w0, Q a w0 -> Q' a w0) ->
  (forall w0, E w0 -> E' w0) ->
  triple P m Q E -> triple P' m Q' E'.
Proof.
  intros HP HQ HE Hm w0 HP'. specialize (Hm w0 (HP _ HP')).
  destruct (m w0) as [[a|e] w1]; auto.
Qed.

(** A computation that does not write to the heap keeps whatever holds of
    it. *)
Lemma triple_heap_reads {A} (I : gmap loc object -> Prop) (m : M A) :
  (forall w0, heap (snd (m w0)) = heap w0) ->
  triple (fun w0 => I (heap w0)) m (fun _ w1 => I (heap w1)) (fun w1 => I (heap w1)).
Proof.
  intros Hm w0 HI. specialize (Hm w0).
  destruct (m w0) as [[a|e] w1]; simpl in Hm; rewrite Hm; exact HI.
Qed.

(** A computation that does not write to the log keeps whatever holds of
    it. *)
Lemma triple_log_reads {A} (J : list event -> Prop) (m : M A) :
  (forall w0, log (snd (m w0)) = log w0) ->
  triple (fun w0 => J (log w0)) m (fun _ w1 => J (log w1)) (fun w1 => J (log w1)).
Proof.
  intros Hm w0 HJ. specialize (Hm w0).
  destruct (m w0) as [[a|e] w1]; simpl in Hm; rewrite Hm; exact HJ.
Qed.

Lemma setattr_log (o : loc) (name : string) (v : pyval) (w0 : world) :
  log (snd (setattr o name v w0)) = log w0.
Proof.
  unfold setattr. destruct (heap w0 !! o) as [[attrs| |]|]; reflexivity.
Qed.

Lemma getattr_same (p : loc) (name : string) (w0 : world) :
  snd (getattr p name w0) = w0.
Proof.
  unfold getattr. destruct (heap w0 !! p) as [[attrs| |]|]; try reflexivity.
  destruct (attrs !! name); reflexivity.
Qed.

Section Constructor.

Variable requests_get : list event -> url -> result http_response.
Variables name country osm_type : string.

(** The heap is [h0] with one instance more, at [l]. *)
Lemma triple_setattr_new (h0 : gmap loc object) (l : loc) (key : string) (v : pyval) :
  triple (fun w0 => exists attrs, heap w0 = <[l := OInstance attrs]> h0)
         (setattr l key v)
         (fun _ w1 => exists attrs, heap w1 = <[l := OInstance attrs]> h0)
         (fun w1 => exists attrs, heap w1 = <[l := OInstance attrs]> h0).
Proof.
  intros w0 [attrs Hheap]. unfold setattr. rewrite Hheap, lookup_insert_eq. simpl.
  exists (<[key := v]> attrs). rewrite insert_insert_eq. reflexivity.
Qed.

Lemma triple_geo_decode_new (h0 : gmap loc object) (l : loc) :
  triple (fun w0 => exists attrs, heap w0 = <[l := OInstance attrs]> h0)
         (__geo_decode requests_get l name country osm_type)
         (fun _ w1 => exists attrs, heap w1 = <[l := OInstance attrs]> h0)
         (fun w1 => exists attrs, heap w1 = <[l := OInstance attrs]> h0).
Proof.
  unfold __geo_decode.
  pose (I := fun h : gmap loc object => exists attrs, h = <[l := OInstance attrs]> h0).
  eapply triple_bind; [apply (triple_heap_reads I); reflexivity | intros response].
  destruct (negb _); [apply (triple_heap_reads I); reflexivity |].
  do 4 (eapply triple_bind; [apply (triple_heap_reads I); reflexivity | intros ?]).
  eapply triple_bind; [apply triple_setattr_new | intros []].
  eapply triple_bind; [apply (triple_heap_reads I); reflexivity | intros ?].
  eapply triple_bind; [apply triple_setattr_new | intros []].
  eapply triple_bind; [apply (triple_heap_reads I); reflexivity | intros ?].
  apply triple_setattr_new.
Qed.

(** X6.  Whatever the outcome, the constructor changes the heap by one new
    instance and nothing else: every object that was there is as it was,
    also when the resolution fails half way. *)
Theorem poi_adds_one_instance (w : world) :
  exists attrs,
    heap (snd (poi requests_get name country osm_type w)) =
      <[fresh (dom (heap w)) := OInstance attrs]> (heap w) /\
    heap w !! fresh (dom (heap w)) = None /\
    preserves (heap w) (heap (snd (poi requests_get name country osm_type w))).
Proof.
  assert (Hnew : heap w !! fresh (dom (heap w)) = None)
    by apply not_elem_of_dom, is_fresh.
  pose proof (triple_geo_decode_new (heap w) (fresh (dom (heap w)))
                (World (<[fresh (dom (heap w)) := OInstance ∅]> (heap w)) (log w))
                (ex_intro _ ∅ eq_refl)) as Ht.
  unfold poi, __init__, bind, alloc, ret. simpl.
  destruct (__geo_decode _ _ _ _ _ _) as [[[]|e] w1]; simpl;
    destruct Ht as [attrs Hheap]; exists attrs;
    (split; [exact Hheap |]); (split; [exact Hnew |]);
    intros l o Hl; rewrite Hheap, lookup_insert_ne; [exact Hl | | exact Hl |];
    intros <-; rewrite Hnew in Hl; discriminate.
Qed.

Lemma triple_geo_decode_log (l : loc) (lg : list event) :
  let u := NominatimSearch name country in
  let asked (w1 : world) :=
    log w1 = (lg ++ [Get u])%list \/
    exists response,
      requests_get lg u = Ok response /\
      status_code response = 200 /\
      log w1 = (lg ++ [Get u; Json response])%list in
  triple (fun w0 => log w0 = lg)
         (__geo_decode requests_get l name country osm_type)
         (fun _ => asked) asked.
Proof.
  intros u asked w0 Hlog. unfold __geo_decode.
  unfold bind at 1. unfold get at 1. rewrite Hlog. fold u.
  destruct (requests_get lg u) as [response|e] eqn:Hget; [| left; reflexivity].
  destruct (Z.eqb_spec (status_code response) 200) as [Hstatus|Hstatus];
    simpl; [| left; reflexivity].
  unfold bind at 1. unfold json_of at 1. simpl.
  assert (Hasked : forall w1, log w1 = ((lg ++ [Get u]) ++ [Json response])%list ->
                     asked w1).
  { intros w1 Hw1. right. exists response. rewrite Hw1, <- app_assoc. auto. }
  destruct (json response) as [response_json|e]; [| apply Hasked; reflexivity].
  match goal with
  | |- match ?tail ?w1 with _ => _ end =>
      assert (Htail : triple (fun w => log w = log w1) tail
                        (fun _ w2 => log w2 = log w1) (fun w2 => log w2 = log w1));
      [| specialize (Htail w1 eq_refl); destruct (tail w1) as [[[]|e] w2];
         apply Hasked; exact Htail]
  end.
  pose (J := fun events : list event =>
               events = ((lg ++ [Get u]) ++ [Json response])%list).
  do 3 (eapply triple_bind; [apply (triple_log_reads J); reflexivity | intros ?]).
  eapply triple_bind; [apply (triple_log_reads J), setattr_log | intros []].
  eapply triple_bind; [apply (triple_log_reads J); reflexivity | intros ?].
  eapply triple_bind; [apply (triple_log_reads J), setattr_log | intros []].
  eapply triple_bind; [apply (triple_log_reads J); reflexivity | intros ?].
  apply (triple_log_reads J), setattr_log.
Qed.

(** X7.  Whatever the outcome, a resolution makes exactly one request, the
    search for [name] and [country], and parses its answer at most once,
    and only when the status is 200. *)
Theorem poi_one_request (w : world) :
  let u := NominatimSearch name country in
  let w' := snd (poi requests_get name country osm_type w) in
  log w' = (log w ++ [Get u])%list \/
  exists response,
    requests_get (log w) u = Ok response /\
    status_code response = 200 /\
    log w' = (log w ++ [Get u; Json response])%list.
Proof.
  intros u w'. subst w'.
  pose proof (triple_geo_decode_log (fresh (dom (heap w))) (log w)
                (World (<[fresh (dom (heap w)) := OInstance ∅]> (heap w)) (log w))
                eq_refl) as Ht.
  unfold poi, __init__, bind, alloc, ret. simpl in *.
  destruct (__geo_decode _ _ _ _ _ _) as [[[]|e] w1]; exact Ht.
Qed.

End Constructor.

(** * Further properties of [route_to] *)

Lemma getattr_cases (p : loc) (name : string) (w : world) :
  (exists v, has_attr (heap w) p name v /\ getattr p name w = (Ok v, w)) \/
  ((forall v, ~ has_attr (heap w) p name v) /\
   getattr p name w = (Raise (AttributeError name), w)).
Proof.
  unfold getattr, has_attr.
  destruct (heap w !! p) as [[attrs| |]|] eqn:Hp;
    try (right; split; [intros v (a & Ha & _); discriminate | reflexivity]).
  destruct (attrs !! name) as [v|] eqn:Hv.
  - left. eauto.
  - right. split; [| reflexivity].
    intros v (a & [= <-] & Ha). rewrite Hv in Ha. discriminate.
Qed.

(** X8.  A call whose origin or destination has no [coordinates] (it is
    not a place, say) raises the [AttributeError] before anything is asked:
    the world, log included, is as it was. *)
Theorem route_to_needs_coordinates
    (requests_get : list event -> url -> result http_response)
    (w : world) (self destination : loc) (mode : string) :
  (forall c, ~ has_attr (heap w) self "coordinates" c) \/
  (forall c, ~ has_attr (heap w) destination "coordinates" c) ->
  route_to requests_get self destination mode w =
    (Raise (AttributeError "coordinates"), w).
Proof.
  intros Hnone. unfold route_to.
  destruct (getattr_cases self "coordinates" w) as [(src & Hsrc & Esrc) | [_ Esrc]];
    [| apply (bind_raise _ _ _ _ _ Esrc)].
  rewrite (bind_ok _ _ _ _ _ Esrc).
  destruct (getattr_cases destination "coordinates" w)
    as [(dest & Hdest & Edest) | [_ Edest]];
    [| apply (bind_raise _ _ _ _ _ Edest)].
  destruct Hnone as [Hnone | Hnone]; [destruct (Hnone _ Hsrc) | destruct (Hnone _ Hdest)].
Qed.

Lemma route_to_needs_coordinates_witness :
  route_to (always (Response 200 (Ok toronto_route))) 1%positive 4%positive
           default_mode odd_world =
    (Raise (AttributeError "coordinates"), odd_world).
Proof.
  apply (route_to_needs_coordinates (always (Response 200 (Ok toronto_route)))
           odd_world 1%positive 4%positive default_mode).
  right. intros c (attrs & Hdict & _). vm_compute in Hdict. discriminate.
Defined.

Lemma append_log (l : loc) (v : pyval) (w0 : world) :
  log (snd (append l v w0)) = log w0.
Proof.
  unfold append. destruct (heap w0 !! l) as [[| items |]|]; reflexivity.
Qed.

Lemma route_step_body_log (l : loc) (route_step : pyval) (w0 : world) :
  log (snd (route_step_body l route_step w0)) = log w0.
Proof.
  rewrite route_step_body_waypoint.
  destruct (waypoint route_step); [apply append_log | reflexivity].
Qed.

Lemma for_each_log {A} (xs : list A) (body : A -> M unit) :
  (forall x w0, log (snd (body x w0)) = log w0) ->
  forall w0, log (snd (for_each xs body w0)) = log w0.
Proof.
  intros Hbody. induction xs as [| x xs IH]; intros w0; simpl; [reflexivity |].
  unfold bind. specialize (Hbody x w0).
  destruct (body x w0) as [[[]|e] w1]; simpl in *; [| exact Hbody].
  rewrite IH. exact Hbody.
Qed.

(** X9.  Whatever the outcome, a call of [route_to] makes at most one
    request, for the origin's and the destination's coordinates in this
    order, each read at 0 and 1, and parses the answer once when there is
    one; when the coordinates cannot be read, nothing is asked. *)
Theorem route_to_one_request
    (requests_get : list event -> url -> result http_response)
    (w : world) (self destination : loc) (mode : string) :
  let w' := snd (route_to requests_get self destination mode w) in
  log w' = log w \/
  exists src dest lon1 lat1 lon2 lat2,
    has_attr (heap w) self "coordinates" src /\
    has_attr (heap w) destination "coordinates" dest /\
    lon_lat src lon1 lat1 /\
    lon_lat dest lon2 lat2 /\
    match requests_get (log w) (OsrmRoute mode lon1 lat1 lon2 lat2) with
    | Ok response =>
        log w' = (log w ++ [Get (OsrmRoute mode lon1 lat1 lon2 lat2); Json response])%list
    | Raise _ =>
        log w' = (log w ++ [Get (OsrmRoute mode lon1 lat1 lon2 lat2)])%list
    end.
Proof.
  intros w'. subst w'. unfold route_to.
  destruct (getattr_cases self "coordinates" w) as [(src & Hsrc & Esrc) | [_ Esrc]];
    [| left; rewrite (bind_raise _ _ _ _ _ Esrc); reflexivity].
  rewrite (bind_ok _ _ _ _ _ Esrc).
  destruct (getattr_cases destination "coordinates" w)
    as [(dest & Hdest & Edest) | [_ Edest]];
    [| left; rewrite (bind_raise _ _ _ _ _ Edest); reflexivity].
  rewrite (bind_ok _ _ _ _ _ Edest).
  destruct (getitem_int src 0) as [lon1|e] eqn:Hs0;
    [rewrite (bind_ok (lift (Ok lon1)) _ w w lon1 eq_refl)
    | left; rewrite (bind_raise (lift (Raise e)) _ w w e eq_refl); reflexivity].
  destruct (getitem_int src 1) as [lat1|e] eqn:Hs1;
    [rewrite (bind_ok (lift (Ok lat1)) _ w w lat1 eq_refl)
    | left; rewrite (bind_raise (lift (Raise e)) _ w w e eq_refl); reflexivity].
  destruct (getitem_int dest 0) as [lon2|e] eqn:Hd0;
    [rewrite (bind_ok (lift (Ok lon2)) _ w w lon2 eq_refl)
    | left; rewrite (bind_raise (lift (Raise e)) _ w w e eq_refl); reflexivity].
  destruct (getitem_int dest 1) as [lat2|e] eqn:Hd1;
    [rewrite (bind_ok (lift (Ok lat2)) _ w w lat2 eq_refl)
    | left; rewrite (bind_raise (lift (Raise e)) _ w w e eq_refl); reflexivity].
  right. exists src, dest, lon1, lat1, lon2, lat2.
  repeat (split; [assumption || (split; assumption) |]).
  pose (u := OsrmRoute mode lon1 lat1 lon2 lat2). fold u.
  destruct (requests_get (log w) u) as [response|e] eqn:Hget;
    [rewrite (bind_ok (get requests_get u) _ w
                (World (heap w) (log w ++ [Get u])) response)
       by (unfold get; rewrite Hget; reflexivity)
    | rewrite (bind_raise (get requests_get u) _ w
                 (World (heap w) (log w ++ [Get u])) e)
        by (unfold get; rewrite Hget; reflexivity);
      reflexivity].
  destruct (json response) as [response_json|e] eqn:Hjson;
    [rewrite (bind_ok (json_of response) _ _
                (World (heap w) ((log w ++ [Get u]) ++ [Json response])) response_json)
       by (unfold json_of; rewrite Hjson; reflexivity)
    | rewrite (bind_raise (json_of response) _ _
                 (World (heap w) ((log w ++ [Get u]) ++ [Json response])) e)
        by (unfold json_of; rewrite Hjson; reflexivity);
      simpl; rewrite <- app_assoc; reflexivity].
  match goal with
  | |- log (snd (?tail ?w1)) = _ =>
      assert (Htail : triple (fun w0 => log w0 = log w1) tail
                        (fun _ w2 => log w2 = log w1) (fun w2 => log w2 = log w1));
      [| specialize (Htail w1 eq_refl); destruct (tail w1) as [[r|e] w2];
         simpl in *; rewrite Htail, <- app_assoc; reflexivity]
  end.
  pose (J := fun events : list event =>
               events = ((log w ++ [Get u]) ++ [Json response])%list).
  eapply triple_bind; [apply (triple_log_reads J); reflexivity | intros code].
  destruct (py_ne code (PStr "Ok")); [apply (triple_log_reads J); reflexivity |].
  do 7 (eapply triple_bind; [apply (triple_log_reads J); reflexivity | intros ?]).
  eapply triple_bind;
    [apply (triple_log_reads J), for_each_log, route_step_body_log | intros []].
  apply (triple_log_reads J). reflexivity.
Qed.

(** The [for] loop stops at the first step without a waypoint, with the
    waypoints of the steps before it appended. *)
Lemma for_each_stops (l : loc) (good : list pyval) (bad : pyval) (rest : list pyval)
    (waypoints : list pyval) (e : exn) :
  Forall2 (fun route_step t => waypoint route_step = Ok t) good waypoints ->
  waypoint bad = Raise e ->
  forall (h : gmap loc object) (lg : list event) (acc : list pyval),
    h !! l = Some (OList acc) ->
    for_each (good ++ bad :: rest) (route_step_body l) (World h lg) =
      (Raise e, World (<[l := OList (acc ++ waypoints)]> h) lg).
Proof.
  intros Hgood Hbad.
  induction Hgood as [| route_step t good waypoints Ht _ IH]; intros h lg acc Hl; simpl.
  - unfold bind. rewrite route_step_body_waypoint, Hbad.
    rewrite app_nil_r, insert_id by assumption. reflexivity.
  - unfold bind at 1. rewrite route_step_body_waypoint, Ht.
    unfold append. simpl. rewrite Hl.
    rewrite (IH _ lg (acc ++ [t])%list) by apply lookup_insert_eq.
    rewrite insert_insert_eq, <- app_assoc. reflexivity.
Qed.

Section RouteMore.

Variable requests_get : list event -> url -> result http_response.
Variable w : world.
Variables self destination : loc.
Variable mode : string.
Variables src dest lon1 lat1 lon2 lat2 : pyval.
Variable response : http_response.

Hypothesis Hsrc : has_attr (heap w) self "coordinates" src.
Hypothesis Hdest : has_attr (heap w) destination "coordinates" dest.
Hypothesis Hsrc01 : lon_lat src lon1 lat1.
Hypothesis Hdest01 : lon_lat dest lon2 lat2.
Hypothesis Hget :
  requests_get (log w) (OsrmRoute mode lon1 lat1 lon2 lat2) = Ok response.

(** X10.  A body that cannot be parsed: [route_to] never looks at the
    status, calls [response.json()] on any answer and raises what that
    raises, not the RoutingError; no route is built. *)
Theorem route_to_unparsable_body (e : exn) :
  json response = Raise e ->
  route_to requests_get self destination mode w =
    (Raise e,
     World (heap w)
           (log w ++ [Get (OsrmRoute mode lon1 lat1 lon2 lat2); Json response])).
Proof.
  intros Hjson.
  destruct Hsrc01 as [Hs0 Hs1], Hdest01 as [Hd0 Hd1].
  unfold route_to. destruct w as [h0 lg]. simpl in *.
  rewrite (bind_ok _ _ _ _ _ (getattr_has _ _ _ _ _ Hsrc)).
  rewrite (bind_ok _ _ _ _ _ (getattr_has _ _ _ _ _ Hdest)).
  unfold bind, lift, get, json_of. simpl.
  rewrite Hs0, Hs1, Hd0, Hd1, Hget, Hjson, <- app_assoc. reflexivity.
Qed.

Variable response_json : pyval.

Hypothesis Hjson : json response = Ok response_json.
Hypothesis Hcode : getitem_str response_json "code" = Ok (PStr "Ok").

(** X11.  An accepted answer without a first route (an empty [routes]
    list, or none): [route_to] raises what the indexing raises, an
    [IndexError] or a [KeyError], and builds nothing. *)
Theorem route_to_no_first_route (e : exn) :
  first_route response_json = Raise e ->
  route_to requests_get self destination mode w =
    (Raise e,
     World (heap w)
           (log w ++ [Get (OsrmRoute mode lon1 lat1 lon2 lat2); Json response])).
Proof.
  intros Hroute. unfold first_route in Hroute.
  destruct Hsrc01 as [Hs0 Hs1], Hdest01 as [Hd0 Hd1].
  unfold route_to. destruct w as [h0 lg]. simpl in *.
  rewrite (bind_ok _ _ _ _ _ (getattr_has _ _ _ _ _ Hsrc)).
  rewrite (bind_ok _ _ _ _ _ (getattr_has _ _ _ _ _ Hdest)).
  unfold bind, lift, get, json_of. simpl.
  rewrite Hs0, Hs1, Hd0, Hd1, Hget, Hjson, Hcode. simpl.
  rewrite Hroute, <- app_assoc. reflexivity.
Qed.

(** X12.  A step without a maneuver location that can be reversed ends the
    call with what reading it raises: no dictionary is built, the waypoints
    of the steps before it stay in a list that nothing refers to, and the
    steps after it are not looked at. *)
Theorem route_to_step_without_waypoint (route cost duration : pyval)
    (good : list pyval) (bad : pyval) (rest waypoints : list pyval) (e : exn) :
  first_route response_json = Ok route ->
  getitem_str route "distance" = Ok cost ->
  getitem_str route "duration" = Ok duration ->
  first_leg_steps route = Ok (good ++ bad :: rest)%list ->
  Forall2 (fun route_step t => waypoint route_step = Ok t) good waypoints ->
  waypoint bad = Raise e ->
  route_to requests_get self destination mode w =
    (Raise e,
     World (<[fresh (dom (heap w)) := OList waypoints]> (heap w))
           (log w ++ [Get (OsrmRoute mode lon1 lat1 lon2 lat2); Json response])).
Proof.
  intros Hroute Hcost Hduration Hsteps Hgood Hbad.
  destruct Hsrc01 as [Hs0 Hs1], Hdest01 as [Hd0 Hd1].
  unfold first_route in Hroute. unfold first_leg_steps in Hsteps.
  destruct (getitem_str route "legs") as [legs|] eqn:Hlegs; [| discriminate].
  simpl in Hsteps.
  destruct (getitem_int legs 0) as [leg|] eqn:Hleg; [| discriminate].
  simpl in Hsteps.
  destruct (getitem_str leg "steps") as [steps|] eqn:Hst; [| discriminate].
  simpl in Hsteps.
  unfold route_to. destruct w as [h0 lg]. simpl in *.
  rewrite (bind_ok _ _ _ _ _ (getattr_has _ _ _ _ _ Hsrc)).
  rewrite (bind_ok _ _ _ _ _ (getattr_has _ _ _ _ _ Hdest)).
  unfold bind, lift, get, json_of, alloc. simpl.
  rewrite Hs0, Hs1, Hd0, Hd1, Hget, Hjson, Hcode. simpl.
  rewrite Hroute, Hcost, Hduration, Hlegs. simpl. rewrite Hleg, Hst, Hsteps.
  rewrite (for_each_stops _ _ _ _ _ _ Hgood Hbad _ _ []) by apply lookup_insert_eq.
  simpl. rewrite insert_insert_eq, <- app_assoc. reflexivity.
Qed.

End RouteMore.

Lemma route_to_unparsable_body_witness :
  route_to (always (Response 502 (Raise JSONDecodeError))) 1%positive 2%positive
           default_mode toronto_world =
    (Raise JSONDecodeError,
     World (heap toronto_world)
           (log toronto_world ++
            [Get toronto_request; Json (Response 502 (Raise JSONDecodeError))])).
Proof.
  apply (route_to_unparsable_body (always (Response 502 (Raise JSONDecodeError)))
           toronto_world 1%positive 2%positive default_mode
           toronto_src toronto_dest
           (PFloat (-79.3973638)) (PFloat 43.6620257) (PFloat (-79.3871)) (PFloat 43.6426)
           (Response 502 (Raise JSONDecodeError))
           toronto_src_attr toronto_dest_attr
           (conj eq_refl eq_refl) (conj eq_refl eq_refl) eq_refl
           JSONDecodeError eq_refl).
Defined.

Lemma route_to_no_first_route_witness :
  route_to (always (Response 200 (Ok no_routes))) 1%positive 2%positive
           default_mode toronto_world =
    (Raise IndexError,
     World (heap toronto_world)
           (log toronto_world ++
            [Get toronto_request; Json (Response 200 (Ok no_routes))])).
Proof.
  apply (route_to_no_first_route (always (Response 200 (Ok no_routes)))
           toronto_world 1%positive 2%positive default_mode
           toronto_src toronto_dest
           (PFloat (-79.3973638)) (PFloat 43.6620257) (PFloat (-79.3871)) (PFloat 43.6426)
           (Response 200 (Ok no_routes))
           toronto_src_attr toronto_dest_attr
           (conj eq_refl eq_refl) (conj eq_refl eq_refl) eq_refl
           no_routes eq_refl eq_refl IndexError eq_refl).
Defined.

Lemma route_to_step_without_waypoint_witness :
  route_to (always (Response 200 (Ok broken_route))) 1%positive 2%positive
           default_mode toronto_world =
    (Raise (KeyError (PStr "location")),
     World (<[fresh (dom (heap toronto_world)) :=
                OList [PTuple [PFloat 43.66; PFloat (-79.40)]]]> (heap toronto_world))
           (log toronto_world ++
            [Get toronto_request; Json (Response 200 (Ok broken_route))])).
Proof.
  apply (route_to_step_without_waypoint (always (Response 200 (Ok broken_route)))
           toronto_world 1%positive 2%positive default_mode
           toronto_src toronto_dest
           (PFloat (-79.3973638)) (PFloat 43.6620257) (PFloat (-79.3871)) (PFloat 43.6426)
           (Response 200 (Ok broken_route))
           toronto_src_attr toronto_dest_attr
           (conj eq_refl eq_refl) (conj eq_refl eq_refl) eq_refl
           broken_route eq_refl eq_refl
           (PDict [("distance", PFloat 2417.3); ("duration", PFloat 391.5);
                   ("legs", PList [PDict [("steps",
                      PList [step_of (-79.40) 43.66;
                             PDict [("maneuver", PDict [("type", PStr "turn")])];
                             step_of (-79.38) 43.65])]])])
           (PFloat 2417.3) (PFloat 391.5)
           [step_of (-79.40) 43.66]
           (PDict [("maneuver", PDict [("type", PStr "turn")])])
           [step_of (-79.38) 43.65]
           [PTuple [PFloat 43.66; PFloat (-79.40)]]
           (KeyError (PStr "location"))
           eq_refl eq_refl eq_refl eq_refl);
    [repeat constructor | reflexivity].
Defined.

(** * Further properties of the identity methods *)


Section Equivalence.

Variable w : world.
Variables p q r : loc.
Variables idp idq idr : pyval.

Hypothesis Hp : has_attr (heap w) p "osmid" idp.
Hypothesis Hq : has_attr (heap w) q "osmid" idq.
Hypothesis Hr : has_attr (heap w) r "osmid" idr.
Hypothesis Hidp : is_identifier idp.
Hypothesis Hidq : is_identifier idq.
Hypothesis Hidr : is_identifier idr.

(** X14.  On places whose identifiers are integers or strings, [__eq__]
    is an equivalence: a place equals itself, [p == q] and [q == p] give
    the same answer, and equality carries over from [p == q] and [q == r]
    to [p == r]. *)
Theorem eq_is_equivalence :
  __eq__ p p w = (Ok (PBool true), w) /\
  __eq__ p q w = __eq__ q p w /\
  (__eq__ p q w = (Ok (PBool true), w) ->
   __eq__ q r w = (Ok (PBool true), w) ->
   __eq__ p r w = (Ok (PBool true), w)).
Proof.
  rewrite (eq_compares_osmid w p p idp idp Hp Hp).
  rewrite (eq_compares_osmid w p q idp idq Hp Hq).
  rewrite (eq_compares_osmid w q p idq idp Hq Hp).
  rewrite (eq_compares_osmid w q r idq idr Hq Hr).
  rewrite (eq_compares_osmid w p r idp idr Hp Hr).
  pose proof (py_eq_identifier idp idp Hidp Hidp) as Hpp.
  pose proof (py_eq_identifier idp idq Hidp Hidq) as Hpq.
  pose proof (py_eq_identifier idq idp Hidq Hidp) as Hqp.
  pose proof (py_eq_identifier idq idr Hidq Hidr) as Hqr.
  pose proof (py_eq_identifier idp idr Hidp Hidr) as Hpr.
  split; [| split].
  - replace (py_eq idp idp) with true; [reflexivity |].
    symmetry. apply Hpp. reflexivity.
  - replace (py_eq idq idp) with (py_eq idp idq); [reflexivity |].
    apply Bool.eq_true_iff_eq. rewrite Hpq, Hqp. split; intros ->; reflexivity.
  - intros [= E1] [= E2]. apply Hpq in E1. apply Hqr in E2.
    replace (py_eq idp idr) with true; [reflexivity |].
    symmetry. apply Hpr. congruence.
Qed.

End Equivalence.

Lemma eq_is_equivalence_witness :
  __eq__ 1%positive 1%positive stale_world = (Ok (PBool true), stale_world) /\
  __eq__ 1%positive 2%positive stale_world = __eq__ 2%positive 1%positive stale_world /\
  (__eq__ 1%positive 2%positive stale_world = (Ok (PBool true), stale_world) ->
   __eq__ 2%positive 1%positive stale_world = (Ok (PBool true), stale_world) ->
   __eq__ 1%positive 1%positive stale_world = (Ok (PBool true), stale_world)).
Proof.
  apply (eq_is_equivalence stale_world 1%positive 2%positive 1%positive
           (PInt 12345) (PInt 12345) (PInt 12345)
           stale_attr_1 stale_attr_2 stale_attr_1 I I I).
Defined.

(** * What the outcome of [route_to] depends on *)

Lemma agree_bind {A B} (m1 m2 : M A) (k1 k2 : A -> M B) (w1 w2 : world) :
  agree (m1 w1) (m2 w2) ->
  (forall a w1' w2', heap w1' = heap w2' -> agree (k1 a w1') (k2 a w2')) ->
  agree (bind m1 k1 w1) (bind m2 k2 w2).
Proof.
  unfold agree, bind. intros [Hres Hheap] Hk.
  destruct (m1 w1) as [[a1|e1] w1'], (m2 w2) as [[a2|e2] w2']; simpl in *;
    try discriminate.
  - injection Hres as <-. apply Hk, Hheap.
  - injection Hres as <-. split; [reflexivity | assumption].
Qed.

Lemma heap_only_bind {A B} (m : M A) (k : A -> M B) :
  heap_only m -> (forall a, heap_only (k a)) -> heap_only (bind m k).
Proof.
  intros Hm Hk w1 w2 Hheap. apply agree_bind; [apply Hm, Hheap |].
  intros a w1' w2'. apply Hk.
Qed.

Lemma heap_only_lift {A} (r : result A) : heap_only (lift r).
Proof. intros w1 w2 Hheap. split; [reflexivity | exact Hheap]. Qed.

Lemma heap_only_raise {A} (e : exn) : heap_only (@raise A e).
Proof. intros w1 w2 Hheap. split; [reflexivity | exact Hheap]. Qed.

Lemma heap_only_alloc (o : object) : heap_only (alloc o).
Proof.
  intros w1 w2 Hheap. unfold agree, alloc. simpl. rewrite Hheap. auto.
Qed.

Lemma heap_only_append (l : loc) (v : pyval) : heap_only (append l v).
Proof.
  intros w1 w2 Hheap. unfold agree, append. rewrite Hheap.
  destruct (heap w2 !! l) as [[| items |]|]; simpl; auto.
Qed.

Lemma heap_only_for_each {A} (xs : list A) (body : A -> M unit) :
  (forall x, heap_only (body x)) -> heap_only (for_each xs body).
Proof.
  intros Hbody. induction xs as [| x xs IH]; simpl.
  - intros w1 w2 Hheap. split; [reflexivity | exact Hheap].
  - apply heap_only_bind; [apply Hbody | intros _; exact IH].
Qed.

Lemma heap_only_route_step_body (l : loc) (route_step : pyval) :
  heap_only (route_step_body l route_step).
Proof.
  unfold route_step_body.
  repeat (apply heap_only_bind; [apply heap_only_lift | intros ?]).
  apply heap_only_append.
Qed.

Lemma bind_get {B} (requests_get : list event -> url -> result http_response)
    (u : url) (k : http_response -> M B) (w : world) :
  bind (get requests_get u) k w =
    match requests_get (log w) u with
    | Ok r => k r (World (heap w) (log w ++ [Get u]))
    | Raise e => (Raise e, World (heap w) (log w ++ [Get u]))
    end.
Proof. unfold bind, get. destruct (requests_get (log w) u); reflexivity. Qed.

Lemma bind_json_of {B} (r : http_response) (k : pyval -> M B) (w : world) :
  bind (json_of r) k w =
    match json r with
    | Ok v => k v (World (heap w) (log w ++ [Json r]))
    | Raise e => (Raise e, World (heap w) (log w ++ [Json r]))
    end.
Proof. unfold bind, json_of. destruct (json r); reflexivity. Qed.

(** X15.  The outcome of [route_to] (what it returns or raises, and the
    heap it leaves) depends on the heap and on the body of the answer
    only: two answers with the same parsed body give the same outcome
    whatever their status codes, and whatever was asked before. *)
Theorem route_to_ignores_status
    (net1 net2 : list event -> url -> result http_response)
    (w1 w2 : world) (self destination : loc) (mode : string) :
  heap w1 = heap w2 ->
  (forall u,
     match net1 (log w1) u, net2 (log w2) u with
     | Ok r1, Ok r2 => json r1 = json r2
     | Raise e1, Raise e2 => e1 = e2
     | _, _ => False
     end) ->
  agree (route_to net1 self destination mode w1)
        (route_to net2 self destination mode w2).
Proof.
  intros Hheap Hnet. unfold route_to.
  destruct (getattr_cases self "coordinates" w1) as [(src & Hsrc & E1) | [_ E1]];
    destruct (getattr_cases self "coordinates" w2) as [(src2 & Hsrc2 & E2) | [Hno E2]];
    try (rewrite Hheap in Hsrc; destruct (Hno _ Hsrc)).
  2:{ rewrite <- Hheap in Hsrc2.
      destruct (getattr_cases self "coordinates" w1) as [(? & ? & E) | [Hno _]];
        [congruence | destruct (Hno _ Hsrc2)]. }
  2:{ rewrite (bind_raise _ _ _ _ _ E1), (bind_raise _ _ _ _ _ E2).
      split; [reflexivity | exact Hheap]. }
  assert (src2 = src) as ->.
  { destruct Hsrc as (a1 & Ha1 & Hv1), Hsrc2 as (a2 & Ha2 & Hv2).
    rewrite Hheap in Ha1. congruence. }
  rewrite (bind_ok _ _ _ _ _ E1), (bind_ok _ _ _ _ _ E2).
  destruct (getattr_cases destination "coordinates" w1)
    as [(dest & Hdest & D1) | [Hno1 D1]];
    destruct (getattr_cases destination "coordinates" w2)
      as [(dest2 & Hdest2 & D2) | [Hno2 D2]];
    try (rewrite Hheap in Hdest; destruct (Hno2 _ Hdest));
    try (rewrite <- Hheap in Hdest2; destruct (Hno1 _ Hdest2)).
  2:{ rewrite (bind_raise _ _ _ _ _ D1), (bind_raise _ _ _ _ _ D2).
      split; [reflexivity | exact Hheap]. }
  assert (dest2 = dest) as ->.
  { destruct Hdest as (a1 & Ha1 & Hv1), Hdest2 as (a2 & Ha2 & Hv2).
    rewrite Hheap in Ha1. congruence. }
  rewrite (bind_ok _ _ _ _ _ D1), (bind_ok _ _ _ _ _ D2).
  destruct (getitem_int src 0) as [lon1|e];
    [rewrite (bind_ok (lift (Ok lon1)) _ w1 w1 lon1 eq_refl),
             (bind_ok (lift (Ok lon1)) _ w2 w2 lon1 eq_refl)
    | rewrite (bind_raise (lift (Raise e)) _ w1 w1 e eq_refl),
              (bind_raise (lift (Raise e)) _ w2 w2 e eq_refl);
      split; [reflexivity | exact Hheap]].
  destruct (getitem_int src 1) as [lat1|e];
    [rewrite (bind_ok (lift (Ok lat1)) _ w1 w1 lat1 eq_refl),
             (bind_ok (lift (Ok lat1)) _ w2 w2 lat1 eq_refl)
    | rewrite (bind_raise (lift (Raise e)) _ w1 w1 e eq_refl),
              (bind_raise (lift (Raise e)) _ w2 w2 e eq_refl);
      split; [reflexivity | exact Hheap]].
  destruct (getitem_int dest 0) as [lon2|e];
    [rewrite (bind_ok (lift (Ok lon2)) _ w1 w1 lon2 eq_refl),
             (bind_ok (lift (Ok lon2)) _ w2 w2 lon2 eq_refl)
    | rewrite (bind_raise (lift (Raise e)) _ w1 w1 e eq_refl),
              (bind_raise (lift (Raise e)) _ w2 w2 e eq_refl);
      split; [reflexivity | exact Hheap]].
  destruct (getitem_int dest 1) as [lat2|e];
    [rewrite (bind_ok (lift (Ok lat2)) _ w1 w1 lat2 eq_refl),
             (bind_ok (lift (Ok lat2)) _ w2 w2 lat2 eq_refl)
    | rewrite (bind_raise (lift (Raise e)) _ w1 w1 e eq_refl),
              (bind_raise (lift (Raise e)) _ w2 w2 e eq_refl);
      split; [reflexivity | exact Hheap]].
  pose (u := OsrmRoute mode lon1 lat1 lon2 lat2). fold u.
  specialize (Hnet u).
  rewrite !bind_get.
  destruct (net1 (log w1) u) as [r1|e1], (net2 (log w2) u) as [r2|e2];
    try contradiction; [| split; [simpl; congruence | exact Hheap]].
  rewrite !bind_json_of. rewrite Hnet.
  destruct (json r2) as [response_json|e]; [| split; [reflexivity | exact Hheap]].
  match goal with
  | |- agree (?tail _) (_ _) =>
      assert (Htail : heap_only tail); [| apply Htail; exact Hheap]
  end.
  apply heap_only_bind; [apply heap_only_lift | intros code].
  destruct (py_ne code (PStr "Ok")); [apply heap_only_raise |].
  do 5 (apply heap_only_bind; [apply heap_only_lift | intros ?]).
  apply heap_only_bind; [apply heap_only_alloc | intros route_coords].
  apply heap_only_bind; [apply heap_only_lift | intros items].
  apply heap_only_bind;
    [apply heap_only_for_each, heap_only_route_step_body | intros _].
  apply heap_only_alloc.
Qed.

Lemma route_to_ignores_status_witness :
  agree (route_to (always (Response 200 (Ok toronto_route))) 1%positive 2%positive
                  default_mode toronto_world)
        (route_to (always (Response 500 (Ok toronto_route))) 1%positive 2%positive
                  default_mode toronto_world).
Proof.
  apply (route_to_ignores_status
           (always (Response 200 (Ok toronto_route)))
           (always (Response 500 (Ok toronto_route)))
           toronto_world toronto_world 1%positive 2%positive default_mode eq_refl).
  intros u. reflexivity.
Defined.

(** * Places that the constructor returned *)

Lemma resolved_osmid (h : gmap loc object) (p : loc) (address osmid coordinates : pyval) :
  h !! p = Some (resolved address osmid coordinates) ->
  has_attr h p "osmid" osmid.
Proof.
  intros Hp. eexists. split; [exact Hp |].
  rewrite lookup_insert_ne by discriminate. apply lookup_insert_eq.
Qed.



(** * Drawing: viz.py *)

Lemma pairs_cons {A} (a b : A) (l : list A) :
  pairs (a :: b :: l) = (a, b) :: pairs (b :: l).
Proof. reflexivity. Qed.

Lemma pairs_length {A} (l : list A) : length (pairs l) = (length l - 1)%nat.
Proof.
  destruct l as [| a l]; [reflexivity |].
  revert a. induction l as [| b l IH]; intros a; [reflexivity |].
  rewrite pairs_cons. simpl length. rewrite IH. simpl. lia.
Qed.

Lemma pairs_lookup {A} (l : list A) (i : nat) (a b : A) :
  pairs l !! i = Some (a, b) <-> l !! i = Some a /\ l !! S i = Some b.
Proof.
  destruct l as [| x l]; [split; [discriminate | intros [H _]; discriminate] |].
  revert x i. induction l as [| y l IH]; intros x i.
  - split; [discriminate |]. intros [_ H]. discriminate.
  - rewrite pairs_cons. destruct i as [| i]; simpl.
    + split; [intros [= -> ->]; auto | intros [[= ->] [= ->]]; reflexivity].
    + apply IH.
Qed.

Lemma fold_add_child {A} (f : A -> folium_child) (l : list A) (m : folium_map) :
  fold_left (fun m a => add_child m (f a)) l m =
    FoliumMap (location m) (zoom_start m) (children m ++ List.map f l).
Proof.
  revert m. induction l as [| a l IH]; intros m; simpl.
  - rewrite app_nil_r. destruct m; reflexivity.
  - rewrite IH. unfold add_child. simpl. rewrite <- app_assoc. reflexivity.
Qed.

Lemma fold_add_layer {A} (f : A -> leaflet_layer) (l : list A) (m : leaflet_map) :
  fold_left (fun m a => add_layer m (f a)) l m =
    LeafletMap (map_center m) (zoom m) (layers m ++ List.map f l).
Proof.
  revert m. induction l as [| a l IH]; intros m; simpl.
  - rewrite app_nil_r. destruct m; reflexivity.
  - rewrite IH. unfold add_layer. simpl. rewrite <- app_assoc. reflexivity.
Qed.

(** A loop all of whose turns go through. *)
Lemma for_result_steps {A B S} (body : S -> A -> result S) (step : S -> B -> S)
    (xs : list A) (ys : list B) :
  Forall2 (fun x y => forall s, body s x = Ok (step s y)) xs ys ->
  forall s, for_result xs body s = Ok (fold_left step ys s).
Proof.
  induction 1 as [| x y xs ys Hxy _ IH]; intros s; simpl; [reflexivity |].
  rewrite Hxy. simpl. apply IH.
Qed.

(** A loop that stops at the first turn that raises. *)
Lemma for_result_stops {A B S} (body : S -> A -> result S) (step : S -> B -> S)
    (before : list A) (bad : A) (after : list A) (ys : list B) (e : exn) :
  Forall2 (fun x y => forall s, body s x = Ok (step s y)) before ys ->
  (forall s, body s bad = Raise e) ->
  forall s, for_result (before ++ bad :: after) body s = Raise e.
Proof.
  intros Hbefore Hbad.
  induction Hbefore as [| x y xs ys Hxy _ IH]; intros s; simpl.
  - rewrite Hbad. reflexivity.
  - rewrite Hxy. simpl. apply IH.
Qed.

Lemma index_seq_first {A} (a : A) (l : list A) : index_seq (a :: l) 0 = Some a.
Proof.
  unfold index_seq. simpl length.
  destruct (Z.ltb_spec 0 (Z.of_nat (S (length l)))); [reflexivity | lia].
Qed.

Lemma index_seq_last {A} (l : list A) :
  index_seq l (Z.of_nat (length l) - 1) = last l.
Proof.
  unfold index_seq. rewrite last_lookup.
  destruct l as [| a l]; [reflexivity |].
  set (n := length (a :: l)). assert (1 <= n)%nat by (unfold n; simpl; lia).
  destruct (Z.ltb_spec (Z.of_nat n - 1) 0); [lia |].
  destruct (Z.leb_spec 0 (Z.of_nat n - 1)); [| lia].
  destruct (Z.ltb_spec (Z.of_nat n - 1) (Z.of_nat n)); [| lia].
  simpl andb. cbv iota. replace (Z.to_nat (Z.of_nat n - 1)) with (pred n) by lia.
  reflexivity.
Qed.

(** The lines of the edges, added edge by edge. *)
Lemma fold_segments (geoms : list (list float * list float)) (m : folium_map) :
  fold_left
    (fun m xy =>
       fold_left (fun m uv => add_child m (PolyLine [[fst uv; snd uv]] "black" 2))
                 (pairs (points_of xy)) m)
    geoms m =
    FoliumMap (location m) (zoom_start m)
      (children m ++ flat_map (fun xy => segments (points_of xy)) geoms).
Proof.
  revert m. induction geoms as [| xy geoms IH]; intros m; simpl.
  - rewrite app_nil_r. destruct m; reflexivity.
  - rewrite IH, fold_add_child. simpl. rewrite <- app_assoc. reflexivity.
Qed.

Section Drawing.

Variable osmnx_map : Type.
Variable G : graph osmnx_map.
Variable zoom : Z.
Variable center_osmid : node.
Variable center_node : node_row.

Hypothesis Hcenter : center G = Ok center_osmid.
Hypothesis Hcenter_node : nodes_frame_loc G center_osmid = Ok center_node.

(** X17.  An empty route: once the map is centred, [route[0]] raises an
    [IndexError], in both back ends; except that the leaflet function, on
    a graph of 1000 nodes or more, hands the empty route to osmnx
    instead. *)
Theorem draw_route_empty :
  draw_route_folium G [] zoom = Raise IndexError /\
  draw_route_leaflet G [] zoom =
    if 1000 <=? graph_len G
    then ([TooManyNodes (graph_len G)],
          let? m := plot_route_folium G [] in Ok (Osmnx m))
    else ([], Raise IndexError).
Proof.
  unfold draw_route_folium, draw_route_leaflet.
  rewrite Hcenter. simpl. rewrite Hcenter_node. simpl.
  split; [reflexivity |]. destruct (1000 <=? graph_len G); reflexivity.
Qed.

Variables first final : node.
Variable rest : list node.
Variables start_node end_node : node_row.

Hypothesis Hfinal : last (first :: rest) = Some final.
Hypothesis Hstart : nodes_frame_loc G first = Ok start_node.
Hypothesis Hend : nodes_frame_loc G final = Ok end_node.

(** X18.  A route whose edges are all in the frame, in one direction or
    the other: the folium map is centred on the centre of the graph and
    holds a circle on the first node, a circle on the last node, then for
    every pair of consecutive nodes, in order, one two-point line for
    every pair of consecutive points of the edge, each point as (y, x). *)
Theorem draw_route_folium_children (geoms : list (list float * list float)) :
  Forall2 (fun uv xy => edge_xy G (fst uv) (snd uv) = Ok xy)
          (pairs (first :: rest)) geoms ->
  draw_route_folium G (first :: rest) zoom =
    Ok (FoliumMap [row_y center_node; row_x center_node] zoom
          (circle_of start_node :: circle_of end_node ::
           flat_map (fun xy => segments (points_of xy)) geoms)).
Proof.
  intros Hedges. unfold draw_route_folium.
  rewrite Hcenter. cbv beta iota zeta delta [bind_result].
  rewrite Hcenter_node, index_seq_first, Hstart, index_seq_last, Hfinal, Hend.
  rewrite (for_result_steps _
             (fun m xy => fold_left
                (fun m uv => add_child m (PolyLine [[fst uv; snd uv]] "black" 2))
                (pairs (points_of xy)) m)
             (pairs (first :: rest)) geoms).
  - rewrite fold_segments. reflexivity.
  - eapply Forall2_impl; [exact Hedges |].
    intros uv xy Hxy m. simpl. rewrite Hxy. reflexivity.
Qed.

(** X19.  The same route on a graph of fewer than 1000 nodes, in leaflet:
    nothing is printed, and the map holds a marker on the first node, a
    marker on the last node, then one ant path for every pair of
    consecutive nodes, in order, over the points of the edge as (y, x). *)
Theorem draw_route_leaflet_layers (geoms : list (list float * list float)) :
  graph_len G < 1000 ->
  Forall2 (fun uv xy => edge_xy G (fst uv) (snd uv) = Ok xy)
          (pairs (first :: rest)) geoms ->
  draw_route_leaflet G (first :: rest) zoom =
    ([],
     Ok (Leaflet
           (LeafletMap [row_y center_node; row_x center_node] zoom
              (marker_of start_node :: marker_of end_node ::
               List.map ant_path_of geoms)))).
Proof.
  intros Hsmall Hedges. unfold draw_route_leaflet.
  destruct (Z.leb_spec 1000 (graph_len G)) as [Hbig|_]; [lia |].
  rewrite Hcenter. cbv beta iota zeta delta [bind_result].
  rewrite Hcenter_node, index_seq_first, Hstart, index_seq_last, Hfinal, Hend.
  rewrite (for_result_steps _ (fun m xy => add_layer m (ant_path_of xy))
             (pairs (first :: rest)) geoms).
  - rewrite fold_add_layer. reflexivity.
  - eapply Forall2_impl; [exact Hedges |].
    intros uv xy Hxy m. simpl. rewrite Hxy. reflexivity.
Qed.

(** X20.  A pair of consecutive nodes whose edge is in the frame in
    neither direction: the first failure is swallowed by the [except], the
    second one, of the query from [v] to [u], is what the caller gets, and
    no map is returned, whatever was drawn for the pairs before. *)
Theorem draw_route_missing_edge (before : list (node * node)) (u v : node)
    (after : list (node * node)) (geoms : list (list float * list float))
    (e1 e2 : exn) :
  pairs (first :: rest) = (before ++ (u, v) :: after)%list ->
  Forall2 (fun uv xy => edge_xy G (fst uv) (snd uv) = Ok xy) before geoms ->
  ways_frame_query_xy G u v = Raise e1 ->
  ways_frame_query_xy G v u = Raise e2 ->
  draw_route_folium G (first :: rest) zoom = Raise e2 /\
  (graph_len G < 1000 ->
   draw_route_leaflet G (first :: rest) zoom = ([], Raise e2)).
Proof.
  intros Hpairs Hbefore Huv Hvu.
  assert (Hbad : edge_xy G u v = Raise e2)
    by (unfold edge_xy; rewrite Huv; exact Hvu).
  split.
  - unfold draw_route_folium.
    rewrite Hcenter. cbv beta iota zeta delta [bind_result].
    rewrite Hcenter_node, index_seq_first, Hstart, index_seq_last, Hfinal, Hend, Hpairs.
    apply (for_result_stops _
             (fun m xy => fold_left
                (fun m uv => add_child m (PolyLine [[fst uv; snd uv]] "black" 2))
                (pairs (points_of xy)) m)
             before (u, v) after geoms).
    + eapply Forall2_impl; [exact Hbefore |].
      intros uv xy Hxy m. simpl. rewrite Hxy. reflexivity.
    + intros m. simpl. rewrite Hbad. reflexivity.
  - intros Hsmall. unfold draw_route_leaflet.
    destruct (Z.leb_spec 1000 (graph_len G)) as [Hbig|_]; [lia |].
    rewrite Hcenter. cbv beta iota zeta delta [bind_result].
    rewrite Hcenter_node, index_seq_first, Hstart, index_seq_last, Hfinal, Hend, Hpairs.
    rewrite (for_result_stops _ (fun m xy => add_layer m (ant_path_of xy))
               before (u, v) after geoms e2); [reflexivity | |].
    + eapply Forall2_impl; [exact Hbefore |].
      intros uv xy Hxy m. simpl. rewrite Hxy. reflexivity.
    + intros m. simpl. rewrite Hbad. reflexivity.
Qed.

End Drawing.

Section DrawingMaps.

Variable osmnx_map : Type.
Variable G : graph osmnx_map.
Variable zoom : Z.
Variable highlight : option (list node).
Variable center_osmid : node.
Variable center_node : node_row.

Hypothesis Hcenter : center G = Ok center_osmid.
Hypothesis Hcenter_node : nodes_frame_loc G center_osmid = Ok center_node.

Lemma for_result_highlight (rows : list node_row) (m : folium_map) :
  Forall2 (fun n row => nodes_frame_loc G n = Ok row) (default [] highlight) rows ->
  (if truthy highlight
   then for_result (default [] highlight)
          (fun m node_osmid =>
             let? node := nodes_frame_loc G node_osmid in
             Ok (add_child m (CircleMarker [row_y node; row_x node] "red" 5)))
          m
   else Ok m) =
    Ok (FoliumMap (location m) (zoom_start m)
          (children m ++ List.map circle_of rows)).
Proof.
  intros Hrows.
  assert (Hloop :
    for_result (default [] highlight)
      (fun m node_osmid =>
         let? node := nodes_frame_loc G node_osmid in
         Ok (add_child m (CircleMarker [row_y node; row_x node] "red" 5)))
      m = Ok (FoliumMap (location m) (zoom_start m)
                (children m ++ List.map circle_of rows))).
  { rewrite (for_result_steps _ (fun m row => add_child m (circle_of row))
               (default [] highlight) rows).
    - rewrite fold_add_child. reflexivity.
    - eapply Forall2_impl; [exact Hrows |].
      intros n row Hn m'. simpl. rewrite Hn. reflexivity. }
  destruct highlight as [[| n ns]|]; simpl truthy; cbv iota; exact Hloop.
Qed.


(** X22.  [draw_map_leaflet] on a graph of fewer than 1000 nodes prints
    nothing and returns a map with one polyline for every way, over the
    points of the way with their axes reversed, followed by one marker
    for every highlighted node. *)
Theorem draw_map_leaflet_layers (rows : list node_row) :
  graph_len G < 1000 ->
  Forall2 (fun n row => nodes_frame_loc G n = Ok row) (default [] highlight) rows ->
  draw_map_leaflet G highlight zoom =
    ([],
     Ok (Leaflet
           (LeafletMap [row_y center_node; row_x center_node] zoom
              (List.map (fun coords => Polyline (List.map (@rev float) coords)
                                         "black" false 1)
                        (ways_frame_coords G) ++
               List.map marker_of rows)))).
Proof.
  intros Hsmall Hrows. unfold draw_map_leaflet.
  destruct (Z.leb_spec 1000 (graph_len G)) as [Hbig|_]; [lia |].
  rewrite Hcenter. cbv beta iota zeta delta [bind_result].
  rewrite Hcenter_node.
  rewrite (fold_add_layer
             (fun coords => Polyline (List.map (@rev float) coords) "black" false 1)).
  rewrite (for_result_steps _ (fun m row => add_layer m (marker_of row))
             (default [] highlight) rows).
  - rewrite fold_add_layer. simpl.
    destruct highlight as [[| n ns]|]; simpl; try reflexivity;
      inversion Hrows; subst; simpl; rewrite app_nil_r; reflexivity.
  - eapply Forall2_impl; [exact Hrows |].
    intros n row Hn m'. simpl. rewrite Hn. reflexivity.
Qed.


End DrawingMaps.


Lemma draw_route_empty_witness :
  draw_route_folium sample_graph [] default_zoom = Raise IndexError /\
  draw_route_leaflet sample_graph [] default_zoom =
    if 1000 <=? graph_len sample_graph
    then ([TooManyNodes (graph_len sample_graph)],
          let? m := plot_route_folium sample_graph [] in Ok (Osmnx m))
    else ([], Raise IndexError).
Proof.
  apply (draw_route_empty unit sample_graph default_zoom 2 (NodeRow 43.655 (-79.39))
           eq_refl eq_refl).
Defined.

Lemma draw_route_folium_children_witness :
  draw_route_folium sample_graph [1; 2; 3] default_zoom =
    Ok (FoliumMap [43.655%float; (-79.39)%float] default_zoom
          (circle_of (NodeRow 43.66 (-79.40)) :: circle_of (NodeRow 43.65 (-79.38)) ::
           flat_map (fun xy => segments (points_of xy))
             [([(-79.40)%float; (-79.39)%float], [43.66%float; 43.655%float]);
              ([(-79.38)%float; (-79.385)%float; (-79.39)%float],
               [43.65%float; 43.652%float; 43.655%float])])).
Proof.
  apply (draw_route_folium_children unit sample_graph default_zoom
           2 (NodeRow 43.655 (-79.39)) eq_refl eq_refl
           1 3 [2; 3] (NodeRow 43.66 (-79.40)) (NodeRow 43.65 (-79.38))
           eq_refl eq_refl eq_refl).
  repeat constructor.
Defined.

Lemma draw_route_leaflet_layers_witness :
  draw_route_leaflet sample_graph [1; 2; 3] default_zoom =
    ([],
     Ok (Leaflet
           (LeafletMap [43.655%float; (-79.39)%float] default_zoom
              (marker_of (NodeRow 43.66 (-79.40)) :: marker_of (NodeRow 43.65 (-79.38)) ::
               List.map ant_path_of
                 [([(-79.40)%float; (-79.39)%float], [43.66%float; 43.655%float]);
                  ([(-79.38)%float; (-79.385)%float; (-79.39)%float],
                   [43.65%float; 43.652%float; 43.655%float])])))).
Proof.
  apply (draw_route_leaflet_layers unit sample_graph default_zoom
           2 (NodeRow 43.655 (-79.39)) eq_refl eq_refl
           1 3 [2; 3] (NodeRow 43.66 (-79.40)) (NodeRow 43.65 (-79.38))
           eq_refl eq_refl eq_refl).
  - simpl. lia.
  - repeat constructor.
Defined.

Lemma draw_route_missing_edge_witness :
  draw_route_folium sample_graph [1; 2; 1; 3] default_zoom = Raise IndexError /\
  (graph_len sample_graph < 1000 ->
   draw_route_leaflet sample_graph [1; 2; 1; 3] default_zoom = ([], Raise IndexError)).
Proof.
  apply (draw_route_missing_edge unit sample_graph default_zoom
           2 (NodeRow 43.655 (-79.39)) eq_refl eq_refl
           1 3 [2; 1; 3] (NodeRow 43.66 (-79.40)) (NodeRow 43.65 (-79.38))
           eq_refl eq_refl eq_refl
           [(1, 2); (2, 1)] 1 3 []
           [([(-79.40)%float; (-79.39)%float], [43.66%float; 43.655%float]);
            ([(-79.40)%float; (-79.39)%float], [43.66%float; 43.655%float])]
           IndexError IndexError eq_refl).
  - repeat constructor.
  - reflexivity.
  - reflexivity.
Defined.


Lemma draw_map_leaflet_layers_witness :
  draw_map_leaflet sample_graph None default_zoom =
    ([],
     Ok (Leaflet
           (LeafletMap [43.655%float; (-79.39)%float] default_zoom
              (List.map (fun coords => Polyline (List.map (@rev float) coords)
                                         "black" false 1)
                        (ways_frame_coords sample_graph) ++
               List.map marker_of [])))).
Proof.
  apply (draw_map_leaflet_layers unit sample_graph default_zoom None
           2 (NodeRow 43.655 (-79.39)) eq_refl eq_refl).
  - simpl. lia.
  - constructor.
Defined.


(** On a graph of 1000 nodes the leaflet functions print the line and
    return what osmnx returns, whatever the route or the highlight. *)
Example draw_leaflet_big_graph :
  draw_route_leaflet big_graph [] default_zoom = ([TooManyNodes 1000], Ok (Osmnx tt)) /\
  draw_map_leaflet big_graph (Some [9]) default_zoom =
    ([TooManyNodes 1000], Ok (Osmnx tt)).
Proof. split; reflexivity. Qed.

(** A route of one node: two circles on the same point and no line. *)
Example draw_route_one_node :
  draw_route_folium sample_graph [2] default_zoom =
    Ok (FoliumMap [43.655%float; (-79.39)%float] default_zoom
          [circle_of (NodeRow 43.655 (-79.39)); circle_of (NodeRow 43.655 (-79.39))]).
Proof. reflexivity. Qed.
